(** * visualizacion_burbujas.py: the dot-com / AI bubble report pipeline

    A shallow embedding of [scripts/visualizacion_burbujas.py].  The script is
    a linear batch pipeline over two tables: it sorts the observation table,
    derives three columns, classifies and aligns the events against the
    NASDAQ series, builds four two-panel plotly figures and interpolates them
    into an HTML page.

    Modelling choices, all taken from the script and the libraries it calls:
    - a float64 column is a list of Rocq primitive floats (IEEE 754 binary64,
      the numpy dtype); a missing float is NaN, as in pandas;
    - a datetime64[ns] value is the integer count of nanoseconds since the
      epoch; dates are assumed parsed (no NaT), as the loader requires;
    - a string column that pandas may leave missing ([Series.map] on a key
      outside the dict, a merge without a match) is an [option string];
    - a DataFrame is the list of its rows in index order; every global of
      the script is a function of the two loaded tables. *)

From Stdlib Require Import ZArith Ascii String List Bool Lia.
From Stdlib Require Import Floats.
From Stdlib Require Import Sorting.Sorted Sorting.Permutation.
Import ListNotations.

#[local] Open Scope string_scope.
#[local] Open Scope Z_scope.

(** ** pandas *)

Module pd.

(** [datetime64[ns]]: nanoseconds since 1970-01-01T00:00. *)
Definition datetime64 := Z.

(** Days since the epoch of a proleptic Gregorian date. *)
Definition days_from_civil (y m d : Z) : Z :=
  let y' := if m <=? 2 then y - 1 else y in
  let era := y' / 400 in
  let yoe := y' - era * 400 in
  let mp := if m <=? 2 then m + 9 else m - 3 in
  let doy := (153 * mp + 2) / 5 + d - 1 in
  let doe := yoe * 365 + yoe / 4 - yoe / 100 + doy in
  era * 146097 + doe - 719468.

Definition ns_per_day : Z := 86400 * 1000000000.

(** [pd.Timestamp("YYYY-MM-DD")]: midnight of that day. *)
Definition Timestamp (y m d : Z) : datetime64 :=
  days_from_civil y m d * ns_per_day.

(** [Series.notna] on a float64 column. *)
Definition notna (v : float) : bool := negb (PrimFloat.is_nan v).

(** [Series.notna] on an object column. *)
Definition notna_obj {A : Type} (v : option A) : bool :=
  match v with Some _ => true | None => false end.

(** [Series.where(cond, other)], one element. *)
Definition where_ {A : Type} (v : A) (cond : bool) (other : A) : A :=
  if cond then v else other.

(** [Series.map(dict)]: a key outside the dict maps to a missing value. *)
Fixpoint map_dict (d : list (string * string)) (k : string) : option string :=
  match d with
  | [] => None
  | (k', v) :: d' => if String.eqb k' k then Some v else map_dict d' k
  end.

(** [DataFrame.sort_values]: rows in ascending key order.  The order of
    rows with equal keys is kept, as the lexsort of a multi-column sort
    does; for a single key over distinct dates no tie arises. *)
Section Sort.
Context {A : Type} (le : A -> A -> bool).

Fixpoint insert_sorted (r : A) (l : list A) : list A :=
  match l with
  | [] => [r]
  | r' :: l' => if le r r' then r :: l else r' :: insert_sorted r l'
  end.

Definition sort_values (l : list A) : list A :=
  fold_right insert_sorted [] l.
End Sort.

(** [df.groupby(by)[col].transform(f)]: [f] is applied to the column of
    each group, rows in frame order, and the result of a row is the value
    at the row's position within its group. *)
Section GroupBy.
Context {A K : Type} (same : K -> K -> bool).
Variables (by_ : A -> K) (col : A -> float).
Variable f : list float -> list float.

Definition group (l : list A) (k : K) : list A :=
  filter (fun r => same (by_ r) k) l.

Definition transform_at (l : list A) (i : nat) : float :=
  match nth_error l i with
  | Some r =>
      nth (length (group (firstn i l) (by_ r)))
          (f (map col (group l (by_ r)))) nan
  | None => nan
  end.

Definition groupby_transform (l : list A) : list float :=
  map (transform_at l) (seq 0 (length l)).
End GroupBy.

(** [Series.min()] of a float64 column: missing values are skipped, and
    the minimum of no value is missing. *)
Definition fmin (a b : float) : float := if PrimFloat.ltb b a then b else a.

Definition min (s : list float) : float :=
  match filter notna s with
  | [] => nan
  | v :: vs => fold_left fmin vs v
  end.

(** The backward search of [merge_asof]: over a right frame sorted on the
    key, the last row whose key is at most [t] (exact matches allowed). *)
Section AsOf.
Context {B : Type} (key : B -> datetime64).

Fixpoint asof_scan (right : list B) (t : datetime64) (found : option B)
  : option B :=
  match right with
  | [] => found
  | r :: right' =>
      if key r <=? t then asof_scan right' t (Some r) else found
  end.

Definition asof_backward (right : list B) (t : datetime64) : option B :=
  asof_scan right t None.

(** [pd.merge_asof(left, right, on=key, direction="backward")]: one row
    per left row, in left order, joined by [join] with its match. *)
Definition merge_asof {A C : Type} (lkey : A -> datetime64)
    (join : A -> option B -> C) (left : list A) (right : list B)
  : list C :=
  map (fun l => join l (asof_backward right (lkey l))) left.
End AsOf.

End pd.

(** ** The two loaded tables and the frames derived from them *)

(** A row of [data_processed/indices_dotcom_ia_dataset.csv]. *)
Module Csv.
Record row := {
  date : pd.datetime64;
  index : string;
  period : string;
  close : float;
  drawdown : float;
  rolling_vol_30d : float
}.
End Csv.

(** A row of [df] once the three derived columns are assigned. *)
Module Df.
Record row := {
  obs : Csv.row;
  period_label : option string;
  close_indexed_100 : float;
  drawdown_pct : float
}.
Definition date (r : row) := Csv.date (obs r).
Definition index (r : row) := Csv.index (obs r).
Definition period (r : row) := Csv.period (obs r).
Definition close (r : row) := Csv.close (obs r).
Definition drawdown (r : row) := Csv.drawdown (obs r).
Definition rolling_vol_30d (r : row) := Csv.rolling_vol_30d (obs r).
End Df.

(** A row of [eventos_dotcom_ia.xlsx]. *)
Module Xlsx.
Record row := {
  date : pd.datetime64;
  event_name : string;
  description : string
}.
End Xlsx.

(** A row of [events] with its inferred period and label. *)
Module Ev.
Record row := {
  src : Xlsx.row;
  period : option string;
  period_label : option string
}.
Definition date (e : row) := Xlsx.date (src e).
End Ev.

(** A row of the frame [pd.merge_asof] returns: the left columns, the right
    columns [close], and the two clashing columns under both suffixes. *)
Module Merged.
Record row := {
  date : pd.datetime64;
  event_name : string;
  description : string;
  period_event : option string;
  period_label_event : option string;
  close : float;
  period_idx : option string;
  period_label_idx : option string
}.
End Merged.

(** A row of the final [events_aligned]. *)
Module Aligned.
Record row := {
  date : pd.datetime64;
  event_name : string;
  description : string;
  close : float;
  period : option string;
  period_label : option string
}.
End Aligned.

Definition period_labels : list (string * string) :=
  [ ("dotcom", "Burbuja puntocom (1997–2002)");
    ("ia", "Narrativa IA (2020–2025)") ].

(** [period.map(period_labels)] on a column that may hold missing values. *)
Definition map_period_label (p : option string) : option string :=
  match p with
  | Some k => pd.map_dict period_labels k
  | None => None
  end.

(** The sort key [["index", "period", "date"]], compared column by column. *)
Definition index_period_date_le (a b : Csv.row) : bool :=
  match String.compare (Csv.index a) (Csv.index b) with
  | Lt => true
  | Gt => false
  | Eq =>
      match String.compare (Csv.period a) (Csv.period b) with
      | Lt => true
      | Gt => false
      | Eq => Csv.date a <=? Csv.date b
      end
  end.

(** The group key [["index", "period"]]. *)
Definition index_period (r : Csv.row) : string * string :=
  (Csv.index r, Csv.period r).

Definition same_index_period (k1 k2 : string * string) : bool :=
  String.eqb (fst k1) (fst k2) && String.eqb (snd k1) (snd k2).

(** [lambda s: s / s.iloc[0] * 100]; groupby hands it non-empty columns. *)
Definition rebase (s : list float) : list float :=
  match s with
  | [] => []
  | s0 :: _ => map (fun v => (v / s0 * 100)%float) s
  end.

Definition infer_period (date : pd.datetime64) : option string :=
  if (pd.Timestamp 1997 1 1 <=? date) && (date <=? pd.Timestamp 2002 12 31)
  then Some "dotcom"
  else if (pd.Timestamp 2020 1 1 <=? date) && (date <=? pd.Timestamp 2025 12 31)
  then Some "ia"
  else None.

(** The row [merge_asof] builds from an event and its match, if any. *)
Definition join_event (e : Ev.row) (m : option Df.row) : Merged.row :=
  {| Merged.date := Ev.date e;
     Merged.event_name := Xlsx.event_name (Ev.src e);
     Merged.description := Xlsx.description (Ev.src e);
     Merged.period_event := Ev.period e;
     Merged.period_label_event := Ev.period_label e;
     Merged.close := match m with Some o => Df.close o | None => nan end;
     Merged.period_idx := option_map Df.period m;
     Merged.period_label_idx :=
       match m with Some o => Df.period_label o | None => None end |}.

(** Lines 88-105: the two [where] reconciliations, the rename and the
    column selection. *)
Definition reconcile (r : Merged.row) : Aligned.row :=
  let period_final :=
    pd.where_ (Merged.period_event r)
              (pd.notna_obj (Merged.period_event r))
              (Merged.period_idx r) in
  let period_label_final :=
    pd.where_ (Merged.period_label_event r)
              (pd.notna_obj (Merged.period_label_event r))
              (Merged.period_label_idx r) in
  {| Aligned.date := Merged.date r;
     Aligned.event_name := Merged.event_name r;
     Aligned.description := Merged.description r;
     Aligned.close := Merged.close r;
     Aligned.period := period_final;
     Aligned.period_label := period_label_final |}.

Section Script.

(** What [pd.read_csv] and [pd.read_excel] return. *)
Variable csv : list Csv.row.
Variable xlsx : list Xlsx.row.

(** Line 39. *)
Definition df_sorted : list Csv.row :=
  pd.sort_values index_period_date_le csv.

(** Lines 49-53. *)
Definition close_indexed_100 : list float :=
  pd.groupby_transform same_index_period index_period Csv.close rebase
    df_sorted.

(** Lines 46-56: [df] with [period_label], [close_indexed_100] and
    [drawdown_pct] assigned. *)
Definition df : list Df.row :=
  map (fun rc =>
         {| Df.obs := fst rc;
            Df.period_label := pd.map_dict period_labels (Csv.period (fst rc));
            Df.close_indexed_100 := snd rc;
            Df.drawdown_pct := (Csv.drawdown (fst rc) * 100)%float |})
      (combine df_sorted close_indexed_100).

(** Line 59. *)
Definition df_vol : list Df.row :=
  filter (fun r => pd.notna (Df.rolling_vol_30d r)) df.

(** Line 63. *)
Definition nasdaq : list Df.row :=
  pd.sort_values (fun a b => Df.date a <=? Df.date b)
    (filter (fun r => String.eqb (Df.index r) "NASDAQ") df).

(** Line 74: every loaded event with its inferred period. *)
Definition events_period : list (Xlsx.row * option string) :=
  map (fun e => (e, infer_period (Xlsx.date e))) xlsx.

(** Lines 75-76: the events with a period, and their labels. *)
Definition events : list Ev.row :=
  map (fun ep =>
         {| Ev.src := fst ep;
            Ev.period := snd ep;
            Ev.period_label := map_period_label (snd ep) |})
      (filter (fun ep => pd.notna_obj (snd ep)) events_period).

(** Lines 79-85. *)
Definition events_merged : list Merged.row :=
  pd.merge_asof Df.date Ev.date join_event
    (pd.sort_values (fun a b => Ev.date a <=? Ev.date b) events)
    (pd.sort_values (fun a b => Df.date a <=? Df.date b) nasdaq).

(** Lines 88-105. *)
Definition events_aligned : list Aligned.row :=
  map reconcile events_merged.

(** Lines 115-116. *)
Definition df_dotcom : list Df.row :=
  filter (fun r => String.eqb (Df.period r) "dotcom") df.
Definition df_ia : list Df.row :=
  filter (fun r => String.eqb (Df.period r) "ia") df.

(** Line 204. *)
Definition min_dd : float := pd.min (map Df.drawdown_pct df).

(** Lines 283-284. *)
Definition df_vol_dotcom : list Df.row :=
  filter (fun r => String.eqb (Df.period r) "dotcom") df_vol.
Definition df_vol_ia : list Df.row :=
  filter (fun r => String.eqb (Df.period r) "ia") df_vol.

(** Lines 371-372 and 402-403. *)
Definition nasdaq_dotcom : list Df.row :=
  filter (fun r => String.eqb (Df.period r) "dotcom") nasdaq.
Definition events_dotcom : list Aligned.row :=
  filter (fun a => match Aligned.period a with
                   | Some p => String.eqb p "dotcom"
                   | None => false
                   end) events_aligned.
Definition nasdaq_ia : list Df.row :=
  filter (fun r => String.eqb (Df.period r) "ia") nasdaq.
Definition events_ia : list Aligned.row :=
  filter (fun a => match Aligned.period a with
                   | Some p => String.eqb p "ia"
                   | None => false
                   end) events_aligned.

End Script.

(** ** plotly *)

(** [plotly.graph_objects]: the properties of [go.Scatter] the script sets. *)
Module go.
Record Marker := { size : Z; color : string; symbol : string }.

Record Scatter := {
  x : list pd.datetime64;
  y : list float;
  mode : string;
  name : string;
  line_color : option string;
  marker : option Marker;
  text : option (list string);
  hovertemplate : option string;
  showlegend : option bool
}.
End go.

(** [plotly.subplots.make_subplots] and the figure methods the script
    calls.  A figure is its grid, its traces with the cell each was added
    to, one x axis and one y axis per cell, and its layout. *)
Module subplots.
Record Axis := {
  title_text : option string;
  dtick : option string;
  tickformat : option string;
  ticksuffix : option string;
  range : option (float * float)
}.

Definition no_axis : Axis :=
  {| title_text := None; dtick := None; tickformat := None;
     ticksuffix := None; range := None |}.

Record Margin := { l : Z; r : Z; t : Z; b : Z }.

Record Layout := {
  template : option string;
  title : option string;
  legend_title_text : option string;
  height : option Z;
  margin : option Margin
}.

Definition no_layout : Layout :=
  {| template := None; title := None; legend_title_text := None;
     height := None; margin := None |}.

Definition cell := (nat * nat)%type.

Record Figure := {
  rows : nat;
  cols : nat;
  shared_xaxes : bool;
  shared_yaxes : bool;
  subplot_titles : list string;
  data : list (go.Scatter * cell);
  xaxes : list (cell * Axis);
  yaxes : list (cell * Axis);
  layout : Layout
}.

Definition cells (nrows ncols : nat) : list cell :=
  flat_map (fun i => map (fun j => (i, j)) (seq 1 ncols)) (seq 1 nrows).

Definition make_subplots (nrows ncols : nat) (sx sy : bool)
    (titles : list string) : Figure :=
  {| rows := nrows; cols := ncols;
     shared_xaxes := sx; shared_yaxes := sy;
     subplot_titles := titles;
     data := [];
     xaxes := map (fun c => (c, no_axis)) (cells nrows ncols);
     yaxes := map (fun c => (c, no_axis)) (cells nrows ncols);
     layout := no_layout |}.

Definition add_trace (fig : Figure) (tr : go.Scatter) (row col : nat)
  : Figure :=
  {| rows := rows fig; cols := cols fig;
     shared_xaxes := shared_xaxes fig; shared_yaxes := shared_yaxes fig;
     subplot_titles := subplot_titles fig;
     data := data fig ++ [(tr, (row, col))];
     xaxes := xaxes fig; yaxes := yaxes fig; layout := layout fig |}.

(** A keyword a call passes overrides the property; one it omits leaves
    the property as it was. *)
Definition override {A : Type} (new old : option A) : option A :=
  match new with Some _ => new | None => old end.

Definition update_axis (kw a : Axis) : Axis :=
  {| title_text := override (title_text kw) (title_text a);
     dtick := override (dtick kw) (dtick a);
     tickformat := override (tickformat kw) (tickformat a);
     ticksuffix := override (ticksuffix kw) (ticksuffix a);
     range := override (range kw) (range a) |}.

Definition cell_eqb (c1 c2 : cell) : bool :=
  Nat.eqb (fst c1) (fst c2) && Nat.eqb (snd c1) (snd c2).

Definition update_at (kw : Axis) (c : cell) (axes : list (cell * Axis))
  : list (cell * Axis) :=
  map (fun ca => if cell_eqb (fst ca) c
                 then (fst ca, update_axis kw (snd ca)) else ca) axes.

Definition update_xaxes (fig : Figure) (kw : Axis) (row col : nat)
  : Figure :=
  {| rows := rows fig; cols := cols fig;
     shared_xaxes := shared_xaxes fig; shared_yaxes := shared_yaxes fig;
     subplot_titles := subplot_titles fig;
     data := data fig;
     xaxes := update_at kw (row, col) (xaxes fig);
     yaxes := yaxes fig; layout := layout fig |}.

Definition update_yaxes (fig : Figure) (kw : Axis) (row col : nat)
  : Figure :=
  {| rows := rows fig; cols := cols fig;
     shared_xaxes := shared_xaxes fig; shared_yaxes := shared_yaxes fig;
     subplot_titles := subplot_titles fig;
     data := data fig;
     xaxes := xaxes fig;
     yaxes := update_at kw (row, col) (yaxes fig);
     layout := layout fig |}.

Definition update_layout (fig : Figure) (kw : Layout) : Figure :=
  {| rows := rows fig; cols := cols fig;
     shared_xaxes := shared_xaxes fig; shared_yaxes := shared_yaxes fig;
     subplot_titles := subplot_titles fig;
     data := data fig;
     xaxes := xaxes fig; yaxes := yaxes fig;
     layout :=
       {| template := override (template kw) (template (layout fig));
          title := override (title kw) (title (layout fig));
          legend_title_text :=
            override (legend_title_text kw) (legend_title_text (layout fig));
          height := override (height kw) (height (layout fig));
          margin := override (margin kw) (margin (layout fig)) |} |}.

(** The axis of a cell, and the traces drawn in it. *)
Definition axis_at (axes : list (cell * Axis)) (c : cell) : option Axis :=
  option_map snd (find (fun ca => cell_eqb (fst ca) c) axes).

Definition traces_at (fig : Figure) (c : cell) : list go.Scatter :=
  map fst (filter (fun tc => cell_eqb (snd tc) c) (data fig)).
End subplots.

(** [plotly.io.to_html(fig, include_plotlyjs=False, full_html=False)]: a
    [div] around the figure's specification.  No [div_id] is passed, so
    plotly draws a fresh UUID for the [id] of the [div] on every call;
    [div_id] stands for that draw. *)
Module pio.
Record Html := { div_id : string; figure : subplots.Figure }.

Definition to_html (fig : subplots.Figure) (uuid : string) : Html :=
  {| div_id := uuid; figure := fig |}.
End pio.

(** ** The four figures *)

Definition colors : list (string * string) :=
  [ ("NASDAQ", "#1f77b4"); ("SP500", "#ff7f0e") ].

Definition subplot_titles_periods : list string :=
  [ "Burbuja puntocom (1997–2002)"; "Narrativa IA (2020–2025)" ].

(** The line trace the three loops of charts 1-3 build for one index. *)
Definition line_trace (ycol : Df.row -> float) (frame : list Df.row)
    (idx_name : string) (legend : bool) : go.Scatter :=
  let sub := filter (fun r => String.eqb (Df.index r) idx_name) frame in
  {| go.x := map Df.date sub;
     go.y := map ycol sub;
     go.mode := "lines";
     go.name := idx_name;
     go.line_color := pd.map_dict colors idx_name;
     go.marker := None;
     go.text := None;
     go.hovertemplate := None;
     go.showlegend := Some legend |}.

(** [for idx_name in ["NASDAQ", "SP500"]: fig.add_trace(..., row=1, col=c)]. *)
Definition add_index_traces (fig : subplots.Figure) (ycol : Df.row -> float)
    (frame : list Df.row) (legend : bool) (col : nat) : subplots.Figure :=
  fold_left
    (fun fg idx_name =>
       subplots.add_trace fg (line_trace ycol frame idx_name legend) 1%nat col)
    ["NASDAQ"; "SP500"] fig.

(** [update_xaxes(title_text="Fecha", dtick="M12", tickformat="%Y")]. *)
Definition year_axis : subplots.Axis :=
  {| subplots.title_text := Some "Fecha";
     subplots.dtick := Some "M12";
     subplots.tickformat := Some "%Y";
     subplots.ticksuffix := None;
     subplots.range := None |}.

Definition titled_axis (title : string) : subplots.Axis :=
  {| subplots.title_text := Some title;
     subplots.dtick := None;
     subplots.tickformat := None;
     subplots.ticksuffix := None;
     subplots.range := None |}.

(** [update_yaxes(title_text="Drawdown (%)", ticksuffix=" %",
    range=[-100, 10])], lines 254-268. *)
Definition drawdown_axis : subplots.Axis :=
  {| subplots.title_text := Some "Drawdown (%)";
     subplots.dtick := None;
     subplots.tickformat := None;
     subplots.ticksuffix := Some " %";
     subplots.range := Some ((-100)%float, 10%float) |}.

Definition chart_layout (title : option string) (legend : string) (h : Z)
  : subplots.Layout :=
  {| subplots.template := Some "plotly_white";
     subplots.title := title;
     subplots.legend_title_text := Some legend;
     subplots.height := Some h;
     subplots.margin :=
       Some {| subplots.l := 60; subplots.r := 20;
               subplots.t := 80; subplots.b := 40 |} |}.

(** The marker trace of chart 4 for the events of one period. *)
Definition event_markers (evs : list Aligned.row) (trace_name color symbol : string)
  : go.Scatter :=
  {| go.x := map Aligned.date evs;
     go.y := map Aligned.close evs;
     go.mode := "markers";
     go.name := trace_name;
     go.line_color := None;
     go.marker :=
       Some {| go.size := 9; go.color := color; go.symbol := symbol |};
     go.text := Some (map Aligned.event_name evs);
     go.hovertemplate :=
       Some "<b>%{text}</b><br>Fecha: %{x|%Y-%m-%d}<br>Cierre Nasdaq: %{y:.2f}<extra></extra>";
     go.showlegend := None |}.

Definition nasdaq_line (frame : list Df.row) (trace_name color : string)
  : go.Scatter :=
  {| go.x := map Df.date frame;
     go.y := map Df.close frame;
     go.mode := "lines";
     go.name := trace_name;
     go.line_color := Some color;
     go.marker := None;
     go.text := None;
     go.hovertemplate := None;
     go.showlegend := None |}.

(** [if not evs.empty: fig.add_trace(markers, row, col)]. *)
Definition add_markers_unless_empty (fig : subplots.Figure)
    (evs : list Aligned.row) (trace_name color symbol : string) (row : nat)
  : subplots.Figure :=
  match evs with
  | [] => fig
  | _ :: _ =>
      subplots.add_trace fig (event_markers evs trace_name color symbol)
        row 1%nat
  end.

Section Figures.

Variable csv : list Csv.row.
Variable xlsx : list Xlsx.row.

(** The frame shared by charts 1-3: two panels side by side, the traces
    of the dot-com frame on the left and of the AI frame on the right,
    and a yearly date axis under each. *)
Definition two_panels (ycol : Df.row -> float) (left right : list Df.row)
  : subplots.Figure :=
  let fig := subplots.make_subplots 1 2 false true subplot_titles_periods in
  let fig := add_index_traces fig ycol left true 1 in
  let fig := add_index_traces fig ycol right false 2 in
  let fig := subplots.update_xaxes fig year_axis 1 1 in
  subplots.update_xaxes fig year_axis 1 2.

(** Lines 118-187. *)
Definition fig1 : subplots.Figure :=
  let fig :=
    two_panels Df.close_indexed_100 (df_dotcom csv) (df_ia csv) in
  subplots.update_layout fig
    (chart_layout
       (Some "Evolución normalizada de Nasdaq y S&P 500 en las dos épocas")
       "Índice" 500).

(** Lines 194-277. *)
Definition fig2 : subplots.Figure :=
  let fig := two_panels Df.drawdown_pct (df_dotcom csv) (df_ia csv) in
  let fig := subplots.update_yaxes fig drawdown_axis 1 1 in
  let fig := subplots.update_yaxes fig drawdown_axis 1 2 in
  subplots.update_layout fig
    (chart_layout
       (Some "Profundidad de las caídas (drawdown) en cada burbuja")
       "Índice" 500).

(** Lines 286-352. *)
Definition fig3 : subplots.Figure :=
  let fig :=
    two_panels Df.rolling_vol_30d (df_vol_dotcom csv) (df_vol_ia csv) in
  let fig :=
    subplots.update_yaxes fig (titled_axis "Volatilidad rolling 30 días")
      1 1 in
  subplots.update_layout fig
    (chart_layout
       (Some "Volatilidad rolling a 30 días en las dos épocas")
       "Índice" 500).

(** Lines 360-442. *)
Definition fig4 : subplots.Figure :=
  let fig :=
    subplots.make_subplots 2 1 false false
      [ "Nasdaq en la burbuja puntocom (1997–2002)";
        "Nasdaq en la narrativa de IA (2020–2025)" ] in
  let fig :=
    subplots.add_trace fig
      (nasdaq_line (nasdaq_dotcom csv) "Nasdaq (dotcom)" "#1f77b4") 1 1 in
  let fig :=
    add_markers_unless_empty fig (events_dotcom csv xlsx)
      "Eventos dotcom" "#d62728" "circle" 1 in
  let fig :=
    subplots.add_trace fig
      (nasdaq_line (nasdaq_ia csv) "Nasdaq (IA)" "#2ca02c") 2 1 in
  let fig :=
    add_markers_unless_empty fig (events_ia csv xlsx)
      "Eventos IA" "#ff7f0e" "diamond" 2 in
  let fig := subplots.update_xaxes fig (titled_axis "Fecha") 1 1 in
  let fig := subplots.update_xaxes fig (titled_axis "Fecha") 2 1 in
  let fig := subplots.update_yaxes fig (titled_axis "Cierre Nasdaq") 1 1 in
  let fig := subplots.update_yaxes fig (titled_axis "Cierre Nasdaq") 2 1 in
  subplots.update_layout fig (chart_layout None "Serie" 700).

End Figures.

(** ** The HTML page *)

(** One [<section>] of the page: its [id], its [<h2>], its lead paragraph
    (line breaks and indentation of the template collapsed to one space)
    and the figure fragment interpolated after it. *)
Record Chapter := {
  chapter_id : string;
  heading : string;
  lead : string;
  plot : pio.Html
}.

(** The document [html_template] spells out; the style sheet is a constant
    of the template and is left out. *)
Record Document := {
  lang : string;
  page_title : string;
  plotly_js : string;
  header_h1 : string;
  header_p : string;
  chapters : list Chapter;
  footer : string
}.

Section Report.

Variable csv : list Csv.row.
Variable xlsx : list Xlsx.row.

(** The four identifiers plotly draws, one per [pio.to_html] call. *)
Variables uuid1 uuid2 uuid3 uuid4 : string.

(** Lines 448-451. *)
Definition fig1_html : pio.Html := pio.to_html (fig1 csv) uuid1.
Definition fig2_html : pio.Html := pio.to_html (fig2 csv) uuid2.
Definition fig3_html : pio.Html := pio.to_html (fig3 csv) uuid3.
Definition fig4_html : pio.Html := pio.to_html (fig4 csv xlsx) uuid4.

(** Lines 453-589: what is written to [index.html]. *)
Definition html_template : Document :=
  {| lang := "es";
     page_title :=
       "Dos burbujas, una narrativa: Nasdaq y S&amp;P 500 entre la puntocom y la IA";
     plotly_js := "https://cdn.plot.ly/plotly-2.35.2.min.js";
     header_h1 := "Dos burbujas, una narrativa";
     header_p :=
       "Comparación entre la burbuja puntocom y la actual narrativa de burbuja de la IA a través del Nasdaq y el S&amp;P 500.";
     chapters :=
       [ {| chapter_id := "capitulo1";
            heading := "1. Dos épocas, dos narrativas de mercado";
            lead :=
              "Este primer gráfico muestra la evolución normalizada del Nasdaq y del S&amp;P 500 en cada una de las dos épocas. El panel de la izquierda recoge la burbuja puntocom (1997–2002) y el de la derecha la narrativa reciente de la IA (2020–2025). Al fijar una base 100 en el inicio de cada periodo y compartir la escala vertical, podemos comparar de forma directa la intensidad relativa de las subidas y de las correcciones entre ambas burbujas.";
            plot := fig1_html |};
         {| chapter_id := "capitulo2";
            heading := "2. La profundidad de las caídas: drawdown";
            lead :=
              "El segundo gráfico se centra en el drawdown, es decir, en la caída porcentual desde el máximo histórico hasta cada día. De nuevo, el panel izquierdo muestra la fase puntocom y el derecho la época de la IA, compartiendo la misma escala vertical. Esto permite visualizar de un vistazo la severidad de las correcciones en cada burbuja y comparar el comportamiento de ambos índices en las fases de ajuste.";
            plot := fig2_html |};
         {| chapter_id := "capitulo3";
            heading := "3. Volatilidad como síntoma de tensión";
            lead :=
              "El tercer gráfico representa la volatilidad calculada como la desviación estándar de los retornos diarios en una ventana móvil de 30 días. El panel izquierdo corresponde a la burbuja puntocom y el derecho a la narrativa de la IA. De este modo se puede observar cómo la volatilidad se incrementa en los momentos de mayor tensión del mercado y hasta qué punto los patrones difieren entre las dos épocas.";
            plot := fig3_html |};
         {| chapter_id := "capitulo4";
            heading := "4. Eventos clave en el Nasdaq";
            lead :=
              "Por último, este gráfico sitúa algunos eventos significativos sobre la trayectoria del Nasdaq en cada época, desde fusiones emblemáticas y quiebras corporativas en la burbuja puntocom hasta hitos recientes como el lanzamiento de ChatGPT, las inversiones en modelos fundacionales o la revalorización de Nvidia. Las anotaciones permiten conectar la narrativa cualitativa con el comportamiento cuantitativo del índice.";
            plot := fig4_html |} ];
     footer :=
       "Proyecto de visualización – Máster de Ciencia de Datos (UOC)" |}.

End Report.

(** ** Observations on the outputs, used to state the properties *)



(** The points of a marker trace: date, label and price of each event. *)
Definition marker_points (tr : go.Scatter)
  : list (pd.datetime64 * string * float) :=
  match go.text tr with
  | Some names => combine (combine (go.x tr) names) (go.y tr)
  | None => []
  end.

(** The event markers a figure carries in one cell. *)
Definition event_markers_at (fig : subplots.Figure) (c : subplots.cell)
  : list (pd.datetime64 * string * float) :=
  flat_map marker_points
    (filter (fun tr => String.eqb (go.mode tr) "markers")
       (subplots.traces_at fig c)).

(** The event markers of chart 4, both panels. *)
Definition event_markers_fig4 (csv : list Csv.row) (xlsx : list Xlsx.row)
  : list (pd.datetime64 * string * float) :=
  event_markers_at (fig4 csv xlsx) (1%nat, 1%nat)
  ++ event_markers_at (fig4 csv xlsx) (2%nat, 1%nat).

(** The y range an axis displays, and whether a value lies within it. *)
Definition within (rg : float * float) (v : float) : bool :=
  PrimFloat.leb (fst rg) v && PrimFloat.leb v (snd rg).

Definition yrange_at (fig : subplots.Figure) (c : subplots.cell)
  : option (float * float) :=
  match subplots.axis_at (subplots.yaxes fig) c with
  | Some a => subplots.range a
  | None => None
  end.

(** A close that is a real number other than zero. *)
Definition finite_nonzero (v : float) : bool :=
  PrimFloat.is_finite v && negb (PrimFloat.is_zero v).

(** The rows of [df] in one [(index, period)] group, in frame order. *)
Definition df_group (csv : list Csv.row) (k : string * string)
  : list Df.row :=
  filter (fun r => same_index_period (index_period (Df.obs r)) k) (df csv).

(** The NASDAQ observations of the loaded table. *)
Definition is_nasdaq (c : Csv.row) : bool := String.eqb (Csv.index c) "NASDAQ".

(** The NASDAQ frame as handed to [merge_asof] (line 81), and the
    observation the backward search matches a date to. *)
Definition nasdaq_by_date (csv : list Csv.row) : list Df.row :=
  pd.sort_values (fun a b => Df.date a <=? Df.date b) (nasdaq csv).

Definition matched (csv : list Csv.row) (t : pd.datetime64) : option Df.row :=
  pd.asof_backward Df.date (nasdaq_by_date csv) t.

(** A loaded event classified into period [p], as a row of [events]. *)
Definition classified (e : Xlsx.row) (p : string) : Ev.row :=
  {| Ev.src := e; Ev.period := Some p;
     Ev.period_label := map_period_label (Some p) |}.

(** The marker point an aligned event gives. *)
Definition marker_point (a : Aligned.row) : pd.datetime64 * string * float :=
  (Aligned.date a, Aligned.event_name a, Aligned.close a).

(** ** Sample tables *)

Definition obs_row (y m d : Z) (idx per : string) (c dd vol : float)
  : Csv.row :=
  {| Csv.date := pd.Timestamp y m d; Csv.index := idx; Csv.period := per;
     Csv.close := c; Csv.drawdown := dd; Csv.rolling_vol_30d := vol |}.

Definition event_row (y m d : Z) (name descr : string) : Xlsx.row :=
  {| Xlsx.date := pd.Timestamp y m d; Xlsx.event_name := name;
     Xlsx.description := descr |}.

(** Two NASDAQ closes of January 1999, loaded out of order, next to an
    S&P 500 row and a NASDAQ row of the other period. *)
Definition sample_csv : list Csv.row :=
  [ obs_row 1999 1 4 "NASDAQ" "dotcom" 110 (-0.5) 0.25;
    obs_row 2023 11 29 "NASDAQ" "ia" 14200 (-0.125) nan;
    obs_row 1999 1 1 "SP500" "dotcom" 1200 0 nan;
    obs_row 1999 1 1 "NASDAQ" "dotcom" 100 0 nan;
    obs_row 2023 12 1 "NASDAQ" "ia" 14300 nan 0.5 ].

Definition sample_xlsx : list Xlsx.row :=
  [ event_row 2023 11 30 "GPT" "an event between two trading days";
    event_row 1999 1 3 "IPO" "an event on a weekend";
    event_row 2010 5 6 "Flash crash" "an event outside both periods";
    event_row 1998 6 1 "Early" "an event before the first observation" ].

(** The NASDAQ dot-com group of the sample table: its first row and the
    rest. *)
Definition C3_key : string * string := ("NASDAQ", "dotcom").
Definition C3_first : Df.row :=
  hd {| Df.obs := obs_row 0 0 0 "" "" 0 0 0; Df.period_label := None;
        Df.close_indexed_100 := 0; Df.drawdown_pct := 0 |}
     (df_group sample_csv C3_key).
Definition C3_rest : list Df.row := tl (df_group sample_csv C3_key).



(** An AI-period event dated before the first AI-period observation. *)
Definition cross_period_csv : list Csv.row :=
  [ obs_row 2002 12 30 "NASDAQ" "dotcom" 1339.5 (-0.75) 0.5;
    obs_row 2020 1 10 "NASDAQ" "ia" 9178.75 0 nan ].

Definition cross_period_xlsx : list Xlsx.row :=
  [ event_row 2020 1 2 "First session" "before the first AI observation" ].

(** One observation whose drawdown is half the running maximum. *)
Definition shallow_csv : list Csv.row :=
  [ obs_row 2000 4 14 "NASDAQ" "dotcom" 3321.25 (-0.5) nan ].


(** The y range the spec words for chart 2: from the global minimum
    drawdown percentage up to a positive headroom, in both panels, so
    that every drawdown percentage of the table lies within it. *)
Definition range_from_global_minimum (csv : list Csv.row) : Prop :=
  exists headroom,
    PrimFloat.ltb 0 headroom = true
    /\ yrange_at (fig2 csv) (1%nat, 1%nat) = Some (min_dd csv, headroom)
    /\ yrange_at (fig2 csv) (1%nat, 2%nat) = Some (min_dd csv, headroom)
    /\ forall r, In r (df csv) -> pd.notna (Df.drawdown_pct r) = true ->
                 within (min_dd csv, headroom) (Df.drawdown_pct r) = true.




(** A NASDAQ group whose first close is zero, and one whose first close is
    missing. *)
Definition zero_anchor_csv : list Csv.row :=
  [ obs_row 1999 1 4 "NASDAQ" "dotcom" 110 0 nan;
    obs_row 1999 1 1 "NASDAQ" "dotcom" 0 0 nan ].

Definition missing_anchor_csv : list Csv.row :=
  [ obs_row 1999 1 4 "NASDAQ" "dotcom" 110 0 nan;
    obs_row 1999 1 1 "NASDAQ" "dotcom" nan 0 nan ].

Definition no_row : Df.row :=
  {| Df.obs := obs_row 0 0 0 "" "" 0 0 0; Df.period_label := None;
     Df.close_indexed_100 := 0; Df.drawdown_pct := 0 |}.


(** The points of a trace and of a figure: each date with its value. *)
Definition trace_points (tr : go.Scatter) : list (pd.datetime64 * float) :=
  combine (go.x tr) (go.y tr).

Definition figure_points (fig : subplots.Figure)
  : list (pd.datetime64 * float) :=
  flat_map (fun tc => trace_points (fst tc)) (subplots.data fig).

(** The rows charts 1-3 have a trace for: the two plotted indices in the
    two periods. *)
Definition is_plotted (r : Df.row) : bool :=
  (String.eqb (Df.index r) "NASDAQ" || String.eqb (Df.index r) "SP500")
  && (String.eqb (Df.period r) "dotcom" || String.eqb (Df.period r) "ia").

(** A table with a third index and a third period. *)
Definition mixed_csv : list Csv.row :=
  [ obs_row 2000 3 10 "DJIA" "dotcom" 9928.75 0 0.25;
    obs_row 2000 3 10 "SP500" "dotcom" 1395 0 0.5;
    obs_row 2008 9 15 "NASDAQ" "subprime" 2179.75 (-0.25) 0.75;
    obs_row 2000 3 10 "NASDAQ" "dotcom" 5048.5 0 nan ].

(** * Properties *)

(** ** binary64 facts the script relies on *)

Section Float64.

#[local] Open Scope float_scope.

Lemma is_nan_SF (v : float) :
  PrimFloat.is_nan v
  = match Prim2SF v with S754_nan => true | _ => false end.
Proof.
  unfold PrimFloat.is_nan. rewrite eqb_spec.
  destruct (Prim2SF v) as [s|s| |s m e]; try destruct s; try reflexivity;
    unfold SFeqb, SFcompare;
    rewrite Z.compare_refl, Pos.compare_cont_refl; reflexivity.
Qed.

Lemma finite_nonzero_SF (v : float) :
  finite_nonzero v = true -> exists s m e, Prim2SF v = S754_finite s m e.
Proof.
  unfold finite_nonzero, PrimFloat.is_finite, PrimFloat.is_zero,
    PrimFloat.is_infinity.
  rewrite is_nan_SF, !eqb_spec, abs_spec.
  destruct (Prim2SF v) as [s|s| |s m e]; try destruct s;
    try (vm_compute; discriminate); intros _; eauto.
Qed.

Lemma div_eucl_exact (m : positive) (k : Z) :
  0 <= k -> Z.div_eucl (Z.pos m * k) (Z.pos m) = (k, 0)%Z.
Proof.
  intros Hk.
  assert (Hq : (Z.pos m * k / Z.pos m = k)%Z)
    by (rewrite Z.mul_comm; apply Z.div_mul; lia).
  assert (Hr : ((Z.pos m * k) mod Z.pos m = 0)%Z)
    by (rewrite Z.mul_comm; apply Z.mod_mul; lia).
  unfold Z.modulo, Z.div in Hq, Hr.
  destruct (Z.div_eucl (Z.pos m * k) (Z.pos m)) as [q r].
  subst. reflexivity.
Qed.

(** A finite non-zero float divided by itself is exactly one: the
    quotient of the mantissas is a power of two and nothing is rounded. *)
Lemma div_self (v : float) : finite_nonzero v = true -> v / v = 1.
Proof.
  intros Hv. destruct (finite_nonzero_SF v Hv) as (s & m & e & HSF).
  apply Prim2SF_inj. rewrite div_spec, HSF.
  unfold SF64div, SFdiv, SFdiv_core_binary.
  replace (Zdigits2 (Z.pos m) + e - (Zdigits2 (Z.pos m) + e))%Z
    with 0%Z by lia.
  replace (e - e)%Z with 0%Z by lia.
  change (Z.min (fexp prec emax 0) 0) with (-53)%Z.
  change (0 - -53)%Z with 53%Z.
  cbv iota beta zeta.
  rewrite Z.shiftl_mul_pow2 by lia.
  rewrite div_eucl_exact by lia.
  assert (Hl : new_location (Z.pos m) 0 = loc_Exact)
    by (unfold new_location; destruct (Z.even (Z.pos m)); reflexivity).
  rewrite Hl. destruct s; reflexivity.
Qed.

Lemma rebase_anchor (v : float) :
  finite_nonzero v = true -> v / v * 100 = 100.
Proof. intros Hv. rewrite div_self by assumption. reflexivity. Qed.

End Float64.

(** ** binary64 rounding: scaling a drawdown fraction by 100 *)

Lemma digits2_pos_bounds (m : positive) :
  2 ^ (Z.pos (digits2_pos m) - 1) <= Z.pos m < 2 ^ Z.pos (digits2_pos m).
Proof.
  induction m as [m IH|m IH|]; simpl digits2_pos.
  - rewrite Pos2Z.inj_succ.
    replace (Z.succ (Z.pos (digits2_pos m)) - 1) with (Z.succ (Z.pos (digits2_pos m) - 1)) by lia.
    rewrite !Z.pow_succ_r by lia. lia.
  - rewrite Pos2Z.inj_succ.
    replace (Z.succ (Z.pos (digits2_pos m)) - 1) with (Z.succ (Z.pos (digits2_pos m) - 1)) by lia.
    rewrite !Z.pow_succ_r by lia. lia.
  - simpl. lia.
Qed.

Lemma shr_1_m (mrs : shr_record) :
  0 <= shr_m mrs -> shr_m (shr_1 mrs) = shr_m mrs / 2.
Proof.
  destruct mrs as [m r s]. simpl. intros Hm.
  destruct m as [|[p|p|]|p]; simpl shr_m; try lia.
  - reflexivity.
  - rewrite Pos2Z.inj_xI. apply Z.div_unique with 1; lia.
  - rewrite Pos2Z.inj_xO. apply Z.div_unique with 0; lia.
  - reflexivity.
Qed.

Lemma iter_shr_1_m (p : positive) (mrs : shr_record) :
  0 <= shr_m mrs ->
  shr_m (iter_pos shr_1 p mrs) = shr_m mrs / 2 ^ Z.pos p.
Proof.
  revert mrs. induction p as [p IH|p IH|]; intros mrs Hm; simpl iter_pos.
  - assert (H1 : 0 <= shr_m (shr_1 mrs)) by (rewrite shr_1_m by lia; apply Z.div_pos; lia).
    assert (H2 : 0 <= shr_m (iter_pos shr_1 p (shr_1 mrs))) by (rewrite IH by lia; apply Z.div_pos; lia).
    rewrite IH, IH, shr_1_m by lia.
    rewrite !Z.div_div by lia. f_equal.
    replace (Z.pos p~1) with (1 + Z.pos p + Z.pos p) by lia.
    rewrite !Z.pow_add_r by lia. change (2 ^ 1) with 2. ring.
  - assert (H2 : 0 <= shr_m (iter_pos shr_1 p mrs)) by (rewrite IH by lia; apply Z.div_pos; lia).
    rewrite IH, IH by lia.
    rewrite !Z.div_div by lia. f_equal.
    replace (Z.pos p~0) with (Z.pos p + Z.pos p) by lia.
    rewrite !Z.pow_add_r by lia. ring.
  - rewrite shr_1_m by lia. reflexivity.
Qed.

Lemma shr_shift (mrs : shr_record) (e n : Z) :
  0 <= shr_m mrs -> 0 <= n ->
  shr_m (fst (shr mrs e n)) = shr_m mrs / 2 ^ n /\ snd (shr mrs e n) = e + n.
Proof.
  intros Hm Hn. destruct n as [|p|p]; simpl; try lia.
  - rewrite Z.div_1_r. lia.
  - split; [apply iter_shr_1_m, Hm | reflexivity].
Qed.

Lemma shr_keep (mrs : shr_record) (e n : Z) : n <= 0 -> shr mrs e n = (mrs, e).
Proof. destruct n; simpl; try reflexivity; lia. Qed.

Lemma round_nearest_even_bounds (m : Z) (l : location) :
  m <= round_nearest_even m l <= m + 1.
Proof.
  destruct l as [|[]]; simpl; try lia. destruct (Z.even m); lia.
Qed.

Lemma digits2_pos_le (m : positive) (k : Z) :
  Z.pos m < 2 ^ k -> Z.pos (digits2_pos m) <= k.
Proof.
  intros H. pose proof (digits2_pos_bounds m) as [Hlo _].
  destruct (Z_le_gt_dec (Z.pos (digits2_pos m)) k) as [|Hgt]; [assumption|].
  exfalso.
  assert (0 <= k) by (destruct k; try lia; simpl in H; lia).
  assert (2 ^ k <= 2 ^ (Z.pos (digits2_pos m) - 1)) by (apply Z.pow_le_mono_r; lia).
  lia.
Qed.

(** Rounding a positive mantissa of at least [prec] digits: the result is
    a zero or a finite number whose exponent and mantissa are bounded. *)
Lemma binary_round_aux_bounded (s : bool) (mx : positive) (ex : Z) :
  let D := Z.pos (digits2_pos mx) in
  let e' := Z.max (D + ex - 53) (-1074) in
  53 <= D -> e' + 1 <= 971 ->
  binary_round_aux prec emax s (Z.pos mx) ex loc_Exact = S754_zero s
  \/ exists m3 e3,
       binary_round_aux prec emax s (Z.pos mx) ex loc_Exact
       = S754_finite s m3 e3
       /\ ((e3 = e' /\ Z.pos m3 <= Z.pos mx / 2 ^ (e' - ex) + 1)
           \/ (e3 = e' + 1 /\ Z.pos m3 = 2 ^ 52
               /\ 2 ^ 53 <= Z.pos mx / 2 ^ (e' - ex) + 1)).
Proof.
  intros D e' HD He'.
  pose proof (digits2_pos_bounds mx) as [Hlo Hhi]. fold D in Hlo, Hhi.
  unfold binary_round_aux, shr_fexp.
  change (Zdigits2 (Z.pos mx)) with D.
  change (fexp prec emax (D + ex)) with e'.
  assert (Helo : -1074 <= e') by (unfold e'; lia).
  assert (Hn : 0 <= e' - ex) by (unfold e'; lia).
  destruct (shr_shift (shr_record_of_loc (Z.pos mx) loc_Exact) ex (e' - ex))
    as [Hs1 He1]; [simpl; lia | exact Hn |].
  destruct (shr (shr_record_of_loc (Z.pos mx) loc_Exact) ex (e' - ex))
    as [mrs1 e1]. simpl in Hs1, He1.
  replace e1 with e' by lia. clear He1 e1.
  set (m1 := Z.pos mx / 2 ^ (e' - ex)) in *.
  assert (Hm1 : 0 <= m1 < 2 ^ 53).
  { split; [apply Z.div_pos; [lia | apply Z.pow_pos_nonneg; lia]|].
    apply Z.div_lt_upper_bound; [apply Z.pow_pos_nonneg; lia|].
    rewrite <- Z.pow_add_r by lia.
    apply Z.lt_le_trans with (2 ^ D); [exact Hhi|].
    apply Z.pow_le_mono_r; lia. }
  pose proof (round_nearest_even_bounds (shr_m mrs1) (loc_of_shr_record mrs1))
    as Hr.
  destruct (round_nearest_even (shr_m mrs1) (loc_of_shr_record mrs1))
    as [|q|q]; [| |lia].
  - left.
    change (fexp prec emax (Zdigits2 0 + e'))
      with (Z.max (0 + e' - 53) (-1074)).
    rewrite shr_keep by lia. reflexivity.
  - right. pose proof (digits2_pos_bounds q) as [Hqlo Hqhi].
    destruct (Z_le_gt_dec (Z.pos (digits2_pos q)) 53) as [Hd|Hd].
    + change (fexp prec emax (Zdigits2 (Z.pos q) + e'))
        with (Z.max (Z.pos (digits2_pos q) + e' - 53) (-1074)).
      rewrite shr_keep by lia.
      simpl shr_m. cbv iota.
      replace (e' <=? emax - prec) with true
        by (symmetry; apply Z.leb_le; change (emax - prec) with 971; lia).
      exists q, e'. split; [reflexivity|]. left. split; [reflexivity|lia].
    + assert (Hq : Z.pos q = 2 ^ 53).
      { assert (2 ^ 53 <= 2 ^ (Z.pos (digits2_pos q) - 1))
          by (apply Z.pow_le_mono_r; lia). lia. }
      assert (Eq : q = 9007199254740992%positive) by lia. subst q.
      change (fexp prec emax (Zdigits2 (Z.pos 9007199254740992) + e'))
        with (Z.max (54 + e' - 53) (-1074)).
      replace (Z.max (54 + e' - 53) (-1074) - e') with 1 by lia.
      cbn [shr iter_pos shr_record_of_loc shr_1 shr_m].
      replace (e' + 1 <=? emax - prec) with true
        by (symmetry; apply Z.leb_le; change (emax - prec) with 971; lia).
      exists 4503599627370496%positive, (e' + 1). split; [reflexivity|].
      right. split; [reflexivity|]. split; [reflexivity|].
      fold m1. change (2 ^ 53) with 9007199254740992. lia.
Qed.

Lemma mul_100_within (d : float) :
  (-1 <=? d)%float = true -> (d <=? 0)%float = true ->
  (-100 <=? d * 100)%float = true /\ (d * 100 <=? 10)%float = true.
Proof.
  rewrite !leb_spec, mul_spec.
  pose proof (Prim2SF_valid d) as Hv.
  change (Prim2SF (-1)%float) with (S754_finite true 4503599627370496 (-52)).
  change (Prim2SF (0)%float) with (S754_zero false).
  change (Prim2SF (100)%float) with (S754_finite false 7036874417766400 (-46)).
  change (Prim2SF (-100)%float) with (S754_finite true 7036874417766400 (-46)).
  change (Prim2SF (10)%float) with (S754_finite false 5629499534213120 (-49)).
  destruct (Prim2SF d) as [s|s| |s m e].
  - intros _ _. destruct s; split; reflexivity.
  - destruct s; intros H1 H2; [discriminate H1 | discriminate H2].
  - intros H1. discriminate H1.
  - destruct s; [|intros _ H2; discriminate H2]. intros Hlo _.
    unfold SFleb, SFcompare in Hlo.
    simpl in Hv. unfold bounded, canonical_mantissa in Hv.
    apply andb_true_iff in Hv. destruct Hv as [Hc _].
    apply Z.eqb_eq in Hc.
    change (fexp prec emax (Z.pos (digits2_pos m) + e))
      with (Z.max (Z.pos (digits2_pos m) + e - 53) (-1074)) in Hc.
    pose proof (digits2_pos_bounds m) as [Hmlo Hmhi].
    assert (Hm53 : (Z.pos m < 2 ^ 53)).
    { apply Z.lt_le_trans with (1 := Hmhi). apply Z.pow_le_mono_r; lia. }
    change (2 ^ 53) with 9007199254740992 in Hm53.
    destruct (Z.compare_spec (-52) e) as [He|He|He]; [| discriminate |].
    + (* d = -1 *)
      subst e. rewrite Pos.compare_cont_spec in Hlo.
      assert (Hd : Z.pos (digits2_pos m) = 53) by lia.
      rewrite Hd in Hmlo.
      change (2 ^ (53 - 1)) with 4503599627370496 in Hmlo.
      assert (Hm : 4503599627370496%positive = m).
      { assert (Hle : (m <= 4503599627370496)%positive).
        { intros Hgt. rewrite (Pos.compare_antisym m), Hgt in Hlo.
          discriminate Hlo. }
        apply Pos2Z.pos_le_pos in Hle.
        clear - Hle Hmlo. apply Pos2Z.inj, Z.le_antisymm; assumption. }
      subst m. split; vm_compute; reflexivity.
    + (* -1 < d < 0 *)
      unfold SF64mul, SFmul. simpl xorb.
      pose proof (digits2_pos_bounds (m * 7036874417766400)) as [HDlo HDhi].
      assert (HD53 : (53 <= Z.pos (digits2_pos (m * 7036874417766400)))).
      { destruct (Z_le_gt_dec 53 (Z.pos (digits2_pos (m * 7036874417766400))))
          as [|Hgt]; [assumption|]. exfalso.
        assert (2 ^ Z.pos (digits2_pos (m * 7036874417766400)) <= 2 ^ 52)
          by (apply Z.pow_le_mono_r; lia).
        change (2 ^ 52) with 4503599627370496 in *. lia. }
      assert (HD106 : (Z.pos (digits2_pos (m * 7036874417766400)) <= 106)).
      { apply digits2_pos_le.
        change (2 ^ 106) with (9007199254740992 * 9007199254740992).
        rewrite Pos2Z.inj_mul. nia. }
      destruct (binary_round_aux_bounded true (m * 7036874417766400) (e + -46)
                  HD53) as [Hz|(m3 & e3 & Hf & Hb)]; [lia| |].
      * rewrite Hz. split; reflexivity.
      * rewrite Hf. split; [|reflexivity].
        set (D := Z.pos (digits2_pos (m * 7036874417766400))) in *.
        set (e' := Z.max (D + (e + -46) - 53) (-1074)) in *.
        assert (He' : (e' <= -46)) by (unfold e'; lia).
        assert (Hm1 : (e' = -46 ->
                  Z.pos (m * 7036874417766400) / 2 ^ (e' - (e + -46))
                  < 7036874417766400)).
        { intros E. assert (e = -53) by (unfold e' in E; lia). subst e.
          rewrite E. change (2 ^ (-46 - (-53 + -46))) with 9007199254740992.
          apply Z.div_lt_upper_bound; [lia|]. rewrite Pos2Z.inj_mul. lia. }
        assert (Hbound : (e3 < -46 \/ (e3 = -46 /\ Z.pos m3 <= 7036874417766400))).
        { destruct Hb as [[-> Hm3]|(-> & Hm3 & Hcarry)].
          - destruct (Z.eq_dec e' (-46)) as [E|N]; [right|left; lia].
            specialize (Hm1 E). split; [exact E|lia].
          - destruct (Z.eq_dec e' (-46)) as [E|N].
            + specialize (Hm1 E).
              change (2 ^ 53) with 9007199254740992 in Hcarry. lia.
            + destruct (Z.eq_dec e' (-47)) as [E'|N']; [right|left; lia].
              split; [lia|]. rewrite Hm3. discriminate. }
        unfold SFleb, SFcompare.
        destruct Hbound as [Hlt|[-> Hle]].
        -- destruct (Z.compare_spec (-46) e3); try lia; reflexivity.
        -- simpl. rewrite Pos.compare_cont_spec. simpl.
           destruct (Pos.compare_spec 7036874417766400 m3); try reflexivity. lia.
Qed.

Lemma shr_nonneg (mrs : shr_record) (e n : Z) :
  0 <= shr_m mrs -> 0 <= shr_m (fst (shr mrs e n)).
Proof.
  intros Hm. destruct n as [|p|p]; simpl; try exact Hm.
  rewrite iter_shr_1_m by exact Hm.
  apply Z.div_pos; [exact Hm | apply Z.pow_pos_nonneg; lia].
Qed.

(** Rounding a positive mantissa never gives NaN. *)
Lemma binary_round_aux_not_nan (s : bool) (mx : positive) (ex : Z) :
  binary_round_aux prec emax s (Z.pos mx) ex loc_Exact <> S754_nan.
Proof.
  unfold binary_round_aux, shr_fexp.
  pose proof (shr_nonneg (shr_record_of_loc (Z.pos mx) loc_Exact) ex
                (fexp prec emax (Zdigits2 (Z.pos mx) + ex) - ex)) as H1.
  destruct (shr (shr_record_of_loc (Z.pos mx) loc_Exact) ex
              (fexp prec emax (Zdigits2 (Z.pos mx) + ex) - ex))
    as [mrs1 e1].
  simpl in H1. specialize (H1 ltac:(lia)).
  pose proof (round_nearest_even_bounds (shr_m mrs1) (loc_of_shr_record mrs1))
    as Hr.
  set (m2 := round_nearest_even (shr_m mrs1) (loc_of_shr_record mrs1)) in *.
  pose proof (shr_nonneg (shr_record_of_loc m2 loc_Exact) e1
                (fexp prec emax (Zdigits2 m2 + e1) - e1)) as H2.
  destruct (shr (shr_record_of_loc m2 loc_Exact) e1
              (fexp prec emax (Zdigits2 m2 + e1) - e1)) as [mrs2 e2].
  simpl in H2. specialize (H2 ltac:(lia)).
  destruct (shr_m mrs2); [discriminate| |lia].
  destruct (e2 <=? emax - prec); discriminate.
Qed.

(** Scaling by 100 keeps a value missing and a present value present. *)
Lemma mul_100_is_nan (d : float) :
  PrimFloat.is_nan (d * 100)%float = PrimFloat.is_nan d.
Proof.
  rewrite !is_nan_SF, mul_spec.
  change (Prim2SF 100%float) with (S754_finite false 7036874417766400 (-46)).
  destruct (Prim2SF d) as [s|s| |s m e]; try reflexivity.
  unfold SF64mul, SFmul.
  pose proof (binary_round_aux_not_nan (xorb s false) (m * 7036874417766400)
                (e + -46)) as H.
  destruct (binary_round_aux prec emax (xorb s false)
              (Z.pos (m * 7036874417766400)) (e + -46) loc_Exact);
    try reflexivity. contradiction.
Qed.

(** ** Frames: sorting, filtering, grouping and the as-of search *)

Section SortFacts.

Context {A : Type} (le : A -> A -> bool).

Lemma insert_sorted_perm (r : A) (l : list A) :
  Permutation (r :: l) (pd.insert_sorted le r l).
Proof.
  induction l as [|r' l IH]; simpl.
  - reflexivity.
  - destruct (le r r').
    + reflexivity.
    + rewrite perm_swap. constructor. exact IH.
Qed.

Lemma sort_values_perm (l : list A) : Permutation l (pd.sort_values le l).
Proof.
  induction l as [|r l IH]; simpl.
  - constructor.
  - rewrite <- insert_sorted_perm. constructor. exact IH.
Qed.

Lemma sort_values_In (l : list A) (r : A) :
  In r (pd.sort_values le l) <-> In r l.
Proof.
  split; apply Permutation_in;
    [symmetry|]; apply sort_values_perm.
Qed.

Hypothesis le_total : forall a b, le a b = false -> le b a = true.
Hypothesis le_trans :
  forall a b c, le a b = true -> le b c = true -> le a c = true.

Let R (a b : A) : Prop := le a b = true.

Lemma insert_sorted_sorted (r : A) (l : list A) :
  StronglySorted R l -> StronglySorted R (pd.insert_sorted le r l).
Proof.
  induction 1 as [|r' l Hs IH Hall]; simpl.
  - repeat constructor.
  - destruct (le r r') eqn:Hle.
    + constructor; [constructor; assumption|].
      constructor; [exact Hle|].
      rewrite Forall_forall in Hall |- *. intros x Hx.
      apply le_trans with r'; [exact Hle | apply Hall, Hx].
    + constructor; [exact IH|].
      rewrite Forall_forall in Hall |- *. intros x Hx.
      apply (Permutation_in _ (Permutation_sym (insert_sorted_perm r l)))
        in Hx.
      destruct Hx as [<-|Hx]; [apply le_total, Hle | apply Hall, Hx].
Qed.

Lemma sort_values_sorted (l : list A) :
  StronglySorted R (pd.sort_values le l).
Proof.
  induction l as [|r l IH]; simpl.
  - constructor.
  - apply insert_sorted_sorted, IH.
Qed.

Lemma filter_sorted (p : A -> bool) (l : list A) :
  StronglySorted R l -> StronglySorted R (filter p l).
Proof.
  induction 1 as [|r l Hs IH Hall]; simpl.
  - constructor.
  - destruct (p r); [|exact IH].
    constructor; [exact IH|].
    rewrite Forall_forall in Hall |- *. intros x Hx.
    apply filter_In in Hx. apply Hall, Hx.
Qed.

(** The head of a sorted frame is below every row of the frame. *)
Lemma sorted_head_le (r0 : A) (l : list A) (r : A) :
  le r0 r0 = true ->
  StronglySorted R (r0 :: l) -> In r (r0 :: l) -> le r0 r = true.
Proof.
  intros Hrefl Hs [<-|Hin]; [exact Hrefl|].
  apply StronglySorted_inv in Hs. destruct Hs as [_ Hall].
  rewrite Forall_forall in Hall. apply Hall, Hin.
Qed.

End SortFacts.

Section AsOfFacts.

Context {B : Type} (key : B -> pd.datetime64).

Let R (a b : B) : Prop := (key a <=? key b) = true.

(** On a frame sorted on the key, the scan returns the last row at or
    before [t], or what it held when no row is. *)
Lemma asof_scan_sorted (right : list B) (t : pd.datetime64) :
  StronglySorted R right ->
  forall found,
    (exists m, pd.asof_scan key right t found = Some m /\ In m right
               /\ key m <= t
               /\ forall o, In o right -> key o <= t -> key o <= key m)
    \/ (pd.asof_scan key right t found = found
        /\ forall o, In o right -> t < key o).
Proof.
  induction 1 as [|r l Hs IH Hall]; intros found; simpl.
  - right. split; [reflexivity | intros o []].
  - rewrite Forall_forall in Hall.
    destruct (key r <=? t) eqn:Hrt.
    + left. apply Z.leb_le in Hrt.
      destruct (IH (Some r)) as [(m & Hm & Hin & Hle & Hmax)|[Hm Hnone]].
      * exists m. repeat split; auto.
        intros o [<-|Ho] Hot; [|auto].
        specialize (Hall m Hin). unfold R in Hall.
        apply Z.leb_le in Hall. exact Hall.
      * exists r. repeat split; auto.
        intros o [<-|Ho] Hot; [lia|].
        specialize (Hnone o Ho). lia.
    + right. apply Z.leb_gt in Hrt. split; [reflexivity|].
      intros o [<-|Ho]; [exact Hrt|].
      specialize (Hall o Ho). unfold R in Hall.
      apply Z.leb_le in Hall. lia.
Qed.

Lemma asof_backward_sorted (right : list B) (t : pd.datetime64) :
  StronglySorted R right ->
  match pd.asof_backward key right t with
  | Some m => In m right /\ key m <= t
              /\ forall o, In o right -> key o <= t -> key o <= key m
  | None => forall o, In o right -> t < key o
  end.
Proof.
  intros Hs. unfold pd.asof_backward.
  destruct (asof_scan_sorted right t Hs None)
    as [(m & -> & Hin & Hle & Hmax)|[-> Hnone]]; auto.
Qed.

End AsOfFacts.

Section GroupFacts.

Context {A : Type}.

(** The rank of a row among the rows a mask keeps is its position in the
    masked frame, also under a column-wise function. *)
Lemma nth_map_filter_rank {C : Type} (f : A -> C) (p : A -> bool)
    (l : list A) (i : nat) (r : A) (d : C) :
  nth_error l i = Some r -> p r = true ->
  nth (length (filter p (firstn i l))) (map f (filter p l)) d = f r.
Proof.
  revert i. induction l as [|a l IH]; intros [|i] Hi Hp; simpl in *;
    try discriminate.
  - injection Hi as ->. rewrite Hp. reflexivity.
  - destruct (p a); simpl; apply IH; assumption.
Qed.

Lemma combine_map_fst {B : Type} (l : list A) (l' : list B) :
  length l = length l' -> map fst (combine l l') = l.
Proof.
  revert l'. induction l as [|a l IH]; intros [|b l'] H; simpl in *;
    try discriminate; [reflexivity|].
  f_equal. apply IH. lia.
Qed.

Lemma combine_nth_error {B : Type} (l : list A) (l' : list B) (i : nat)
    (a : A) (b : B) :
  nth_error (combine l l') i = Some (a, b) ->
  nth_error l i = Some a /\ nth_error l' i = Some b.
Proof.
  revert l' i. induction l as [|x l IH]; intros [|y l'] [|i] H;
    simpl in *; try discriminate.
  - injection H as -> ->. auto.
  - apply IH, H.
Qed.

End GroupFacts.

(** ** The sort key of line 39 is a total preorder *)

Lemma string_compare_refl (s : string) : String.compare s s = Eq.
Proof.
  pose proof (String.compare_antisym s s) as H.
  destruct (String.compare s s); simpl in H; congruence.
Qed.

Lemma string_compare_gt_lt (s1 s2 : string) :
  String.compare s1 s2 = Gt -> String.compare s2 s1 = Lt.
Proof.
  intros H. rewrite String.compare_antisym, H. reflexivity.
Qed.

Lemma string_compare_lt_trans (s1 s2 s3 : string) :
  String.compare s1 s2 = Lt -> String.compare s2 s3 = Lt ->
  String.compare s1 s3 = Lt.
Proof.
  revert s2 s3.
  induction s1 as [|a1 s1 IH]; intros [|a2 s2] [|a3 s3]; simpl;
    try discriminate; try reflexivity.
  unfold Ascii.compare.
  destruct (N.compare_spec (N_of_ascii a1) (N_of_ascii a2)) as [E12|L12|G12];
    try discriminate;
    destruct (N.compare_spec (N_of_ascii a2) (N_of_ascii a3)) as [E23|L23|G23];
    try discriminate; intros H12 H23.
  - rewrite E12, E23, N.compare_refl. eapply IH; eassumption.
  - rewrite E12. apply N.compare_lt_iff in L23. rewrite L23. reflexivity.
  - rewrite <- E23. apply N.compare_lt_iff in L12. rewrite L12. reflexivity.
  - assert (L13 : (N_of_ascii a1 < N_of_ascii a3)%N) by lia.
    apply N.compare_lt_iff in L13. rewrite L13. reflexivity.
Qed.

Lemma index_period_date_le_refl (a : Csv.row) :
  index_period_date_le a a = true.
Proof.
  unfold index_period_date_le. rewrite !string_compare_refl.
  apply Z.leb_refl.
Qed.

Lemma index_period_date_le_total (a b : Csv.row) :
  index_period_date_le a b = false -> index_period_date_le b a = true.
Proof.
  unfold index_period_date_le.
  destruct (String.compare (Csv.index a) (Csv.index b)) eqn:Hi;
    try discriminate.
  - apply String.compare_eq_iff in Hi. rewrite Hi, string_compare_refl.
    destruct (String.compare (Csv.period a) (Csv.period b)) eqn:Hp;
      try discriminate.
    + apply String.compare_eq_iff in Hp. rewrite Hp, string_compare_refl.
      intros H. apply Z.leb_gt in H. apply Z.leb_le. lia.
    + rewrite (string_compare_gt_lt _ _ Hp). reflexivity.
  - rewrite (string_compare_gt_lt _ _ Hi). reflexivity.
Qed.

Lemma index_period_date_le_trans (a b c : Csv.row) :
  index_period_date_le a b = true -> index_period_date_le b c = true ->
  index_period_date_le a c = true.
Proof.
  unfold index_period_date_le.
  destruct (String.compare (Csv.index a) (Csv.index b)) eqn:Hab;
    try discriminate;
    destruct (String.compare (Csv.index b) (Csv.index c)) eqn:Hbc;
    try discriminate;
    try (apply String.compare_eq_iff in Hab; rewrite Hab);
    try (apply String.compare_eq_iff in Hbc; rewrite <- Hbc);
    try rewrite Hab; try rewrite Hbc;
    try (rewrite (string_compare_lt_trans _ _ _ Hab Hbc));
    try reflexivity.
  rewrite string_compare_refl.
  destruct (String.compare (Csv.period a) (Csv.period b)) eqn:Pab;
    try discriminate;
    destruct (String.compare (Csv.period b) (Csv.period c)) eqn:Pbc;
    try discriminate;
    try (apply String.compare_eq_iff in Pab; rewrite Pab);
    try (apply String.compare_eq_iff in Pbc; rewrite <- Pbc);
    try rewrite Pab; try rewrite Pbc;
    try (rewrite (string_compare_lt_trans _ _ _ Pab Pbc));
    try reflexivity.
  rewrite string_compare_refl.
  intros H1 H2. apply Z.leb_le in H1, H2. apply Z.leb_le. lia.
Qed.

(** Within one [(index, period)] group the sort key orders by date. *)
Lemma index_period_date_le_same (a b : Csv.row) :
  index_period a = index_period b ->
  index_period_date_le a b = true -> Csv.date a <= Csv.date b.
Proof.
  unfold index_period, index_period_date_le. intros H.
  injection H as -> ->. rewrite !string_compare_refl. apply Z.leb_le.
Qed.

Lemma same_index_period_eq (k1 k2 : string * string) :
  same_index_period k1 k2 = true <-> k1 = k2.
Proof.
  unfold same_index_period. destruct k1 as [i1 p1], k2 as [i2 p2]; simpl.
  rewrite andb_true_iff, !String.eqb_eq. split.
  - intros [-> ->]. reflexivity.
  - intros H. injection H as -> ->. auto.
Qed.

Lemma date_le_total {A : Type} (key : A -> Z) (a b : A) :
  (key a <=? key b) = false -> (key b <=? key a) = true.
Proof. intros H. apply Z.leb_gt in H. apply Z.leb_le. lia. Qed.

Lemma date_le_trans {A : Type} (key : A -> Z) (a b c : A) :
  (key a <=? key b) = true -> (key b <=? key c) = true ->
  (key a <=? key c) = true.
Proof. intros H1 H2. apply Z.leb_le in H1, H2. apply Z.leb_le. lia. Qed.

(** ** The derived frame [df] *)

Section DerivedFrame.

Variable csv : list Csv.row.

Lemma close_indexed_100_length :
  length (close_indexed_100 csv) = length (df_sorted csv).
Proof.
  unfold close_indexed_100, pd.groupby_transform.
  rewrite length_map, length_seq. reflexivity.
Qed.

(** Assigning the derived columns keeps the sorted rows as they are. *)
Lemma df_obs : map Df.obs (df csv) = df_sorted csv.
Proof.
  unfold df. rewrite map_map. simpl.
  apply combine_map_fst. symmetry. apply close_indexed_100_length.
Qed.

Lemma df_sorted_In (c : Csv.row) : In c (df_sorted csv) <-> In c csv.
Proof. apply sort_values_In. Qed.

(** Every loaded observation is a row of [df], and conversely. *)
Lemma df_In_csv (c : Csv.row) :
  In c csv <-> exists r, In r (df csv) /\ Df.obs r = c.
Proof.
  rewrite <- df_sorted_In, <- df_obs, in_map_iff.
  split; intros (r & H1 & H2); exists r; auto.
Qed.

(** What the three assignments leave in a row of [df]. *)
Lemma df_row (r : Df.row) :
  In r (df csv) ->
  exists i,
    nth_error (df_sorted csv) i = Some (Df.obs r)
    /\ Df.close_indexed_100 r
       = pd.transform_at same_index_period index_period Csv.close rebase
           (df_sorted csv) i
    /\ Df.drawdown_pct r = (Df.drawdown r * 100)%float
    /\ Df.period_label r = pd.map_dict period_labels (Df.period r).
Proof.
  unfold df. rewrite in_map_iff. intros ([c v] & <- & Hin). simpl.
  apply In_nth_error in Hin. destruct Hin as [i Hi].
  apply combine_nth_error in Hi. destruct Hi as [Hc Hv].
  exists i. split; [exact Hc|]. split; [|split; reflexivity].
  unfold close_indexed_100, pd.groupby_transform in Hv.
  rewrite nth_error_map in Hv.
  assert (Hlt : (i < length (df_sorted csv))%nat)
    by (apply nth_error_Some; congruence).
  rewrite nth_error_nth' with (d := 0%nat) in Hv
    by (rewrite length_seq; exact Hlt).
  rewrite seq_nth in Hv by exact Hlt. simpl in Hv. congruence.
Qed.

Lemma df_sorted_sorted :
  StronglySorted (fun a b => index_period_date_le a b = true)
    (df_sorted csv).
Proof.
  apply sort_values_sorted.
  - apply index_period_date_le_total.
  - apply index_period_date_le_trans.
Qed.

(** The groups of [df] are the groups of the sorted frame. *)
Lemma df_group_obs (k : string * string) :
  map Df.obs (df_group csv k)
  = pd.group same_index_period index_period (df_sorted csv) k.
Proof.
  unfold df_group, pd.group. rewrite <- df_obs.
  symmetry. apply filter_map_swap.
Qed.

(** The transform of lines 49-53 at row [i]: the close over the close of
    the first row of its group, times 100. *)
Lemma transform_at_rebase (i : nat) (c c0 : Csv.row) (g : list Csv.row) :
  nth_error (df_sorted csv) i = Some c ->
  pd.group same_index_period index_period (df_sorted csv) (index_period c)
  = c0 :: g ->
  pd.transform_at same_index_period index_period Csv.close rebase
    (df_sorted csv) i
  = (Csv.close c / Csv.close c0 * 100)%float.
Proof.
  intros Hi Hg. unfold pd.transform_at. rewrite Hi, Hg.
  change (rebase (map Csv.close (c0 :: g)))
    with (map (fun v => (v / Csv.close c0 * 100)%float)
            (map Csv.close (c0 :: g))).
  rewrite map_map, <- Hg.
  unfold pd.group.
  apply nth_map_filter_rank
    with (f := fun r => (Csv.close r / Csv.close c0 * 100)%float);
    [exact Hi | apply same_index_period_eq; reflexivity].
Qed.

End DerivedFrame.

(** ** Feature Deriver *)

(** C3.  In every non-empty [(index, period)] group of the observation
    table whose first close is a non-zero real number, the first row of the
    group is its first chronological row, its [close_indexed_100] is
    exactly 100, and the [close_indexed_100] of every row of the group is
    its close divided by that first close, times 100.  The group holds
    every loaded observation of that index and period. *)
Theorem C3_rebased_to_100 (csv : list Csv.row) (k : string * string)
    (r0 : Df.row) (g : list Df.row) :
  df_group csv k = r0 :: g ->
  finite_nonzero (Df.close r0) = true ->
  (forall c, In c csv -> index_period c = k ->
             exists r, In r (r0 :: g) /\ Df.obs r = c)
  /\ (forall r, In r (r0 :: g) -> Df.date r0 <= Df.date r)
  /\ Df.close_indexed_100 r0 = 100%float
  /\ (forall r, In r (r0 :: g) ->
        Df.close_indexed_100 r
        = (Df.close r / Df.close r0 * 100)%float).
Proof.
  intros Hg Hnz.
  assert (Hin : forall r, In r (r0 :: g) ->
                          In r (df csv) /\ index_period (Df.obs r) = k).
  { intros r Hr. rewrite <- Hg in Hr. apply filter_In in Hr.
    destruct Hr as [Hr Hk]. apply same_index_period_eq in Hk. auto. }
  assert (Hgo : pd.group same_index_period index_period (df_sorted csv) k
                = Df.obs r0 :: map Df.obs g)
    by (rewrite <- df_group_obs, Hg; reflexivity).
  assert (Hall : forall r, In r (r0 :: g) ->
            Df.close_indexed_100 r
            = (Df.close r / Df.close r0 * 100)%float).
  { intros r Hr. destruct (Hin r Hr) as [Hdf Hk].
    destruct (df_row csv r Hdf) as (i & Hi & -> & _).
    apply transform_at_rebase with (g := map Df.obs g); [exact Hi|].
    rewrite Hk. exact Hgo. }
  split; [|split; [|split]].
  - intros c Hc Hk. apply df_In_csv in Hc. destruct Hc as (r & Hr & <-).
    exists r. split; [|reflexivity].
    rewrite <- Hg. apply filter_In. split; [exact Hr|].
    apply same_index_period_eq, Hk.
  - intros r Hr. apply index_period_date_le_same.
    + destruct (Hin r0 (or_introl eq_refl)) as [_ ->].
      destruct (Hin r Hr) as [_ ->]. reflexivity.
    + apply sorted_head_le with (l := map Df.obs g).
      * apply index_period_date_le_refl.
      * rewrite <- Hgo. apply filter_sorted, df_sorted_sorted.
      * change (In (Df.obs r) (map Df.obs (r0 :: g))). apply in_map, Hr.
  - rewrite (Hall r0 (or_introl eq_refl)). apply rebase_anchor, Hnz.
  - exact Hall.
Qed.

Lemma C3_rebased_to_100_witness :
  (forall c, In c sample_csv -> index_period c = C3_key ->
             exists r, In r (C3_first :: C3_rest) /\ Df.obs r = c)
  /\ (forall r, In r (C3_first :: C3_rest) -> Df.date C3_first <= Df.date r)
  /\ Df.close_indexed_100 C3_first = 100%float
  /\ (forall r, In r (C3_first :: C3_rest) ->
        Df.close_indexed_100 r
        = (Df.close r / Df.close C3_first * 100)%float).
Proof.
  apply (C3_rebased_to_100 sample_csv C3_key C3_first C3_rest).
  - vm_compute. reflexivity.
  - vm_compute. reflexivity.
Defined.

(** The scenario of the spec: closes 100 and 110 rebase to 100 and, in
    binary64, to the float next above 110 (110 / 100 is rounded before the
    product), which is 110 within floating-point tolerance. *)
Example rebase_scenario :
  map Df.close_indexed_100 (df_group sample_csv C3_key)
  = [100%float; PrimFloat.next_up 110].
Proof. reflexivity. Qed.

(** ** Event Aligner *)

Lemma Timestamp_bounds :
  pd.Timestamp 1997 1 1 = 852076800000000000
  /\ pd.Timestamp 2002 12 31 = 1041292800000000000
  /\ pd.Timestamp 2020 1 1 = 1577836800000000000
  /\ pd.Timestamp 2025 12 31 = 1767139200000000000.
Proof. repeat split; reflexivity. Qed.

(** [infer_period] decides membership in the two date ranges. *)
Lemma infer_period_dotcom (d : pd.datetime64) :
  infer_period d = Some "dotcom"
  <-> pd.Timestamp 1997 1 1 <= d <= pd.Timestamp 2002 12 31.
Proof.
  unfold infer_period.
  destruct Timestamp_bounds as (-> & -> & -> & ->).
  destruct (Z.leb_spec 852076800000000000 d),
    (Z.leb_spec d 1041292800000000000),
    (Z.leb_spec 1577836800000000000 d),
    (Z.leb_spec d 1767139200000000000); simpl;
    split; intros Hd; try discriminate; try lia; reflexivity.
Qed.

Lemma infer_period_ia (d : pd.datetime64) :
  infer_period d = Some "ia"
  <-> pd.Timestamp 2020 1 1 <= d <= pd.Timestamp 2025 12 31.
Proof.
  unfold infer_period.
  destruct Timestamp_bounds as (-> & -> & -> & ->).
  destruct (Z.leb_spec 852076800000000000 d),
    (Z.leb_spec d 1041292800000000000),
    (Z.leb_spec 1577836800000000000 d),
    (Z.leb_spec d 1767139200000000000); simpl;
    split; intros Hd; try discriminate; try lia; reflexivity.
Qed.

(** The bounds are the midnights of the four days: a timestamp later in
    the last day of a range is outside it. *)
Example infer_period_last_day :
  infer_period (pd.Timestamp 2002 12 31) = Some "dotcom"
  /\ infer_period (pd.Timestamp 2002 12 31 + 1) = None
  /\ infer_period (pd.Timestamp 2025 12 31) = Some "ia"
  /\ infer_period (pd.Timestamp 2025 12 31 + 1) = None.
Proof. repeat split. Qed.

Lemma infer_period_cases (d : pd.datetime64) (p : string) :
  infer_period d = Some p -> p = "dotcom" \/ p = "ia".
Proof.
  unfold infer_period.
  destruct (_ && _); [intros [= <-]; auto|].
  destruct (_ && _); [intros [= <-]; auto|discriminate].
Qed.

Lemma infer_period_None (d : pd.datetime64) :
  infer_period d = None
  <-> ~ pd.Timestamp 1997 1 1 <= d <= pd.Timestamp 2002 12 31
      /\ ~ pd.Timestamp 2020 1 1 <= d <= pd.Timestamp 2025 12 31.
Proof.
  rewrite <- infer_period_dotcom, <- infer_period_ia. split.
  - intros ->. split; discriminate.
  - intros [H1 H2]. destruct (infer_period d) as [p|] eqn:Hp; [|reflexivity].
    destruct (infer_period_cases d p Hp) as [-> | ->]; contradiction.
Qed.

Section Aligner.

Variable csv : list Csv.row.
Variable xlsx : list Xlsx.row.

(** The rows of [events]: the loaded events with a period. *)
Lemma events_In (ev : Ev.row) :
  In ev (events xlsx)
  <-> exists e p, In e xlsx /\ infer_period (Xlsx.date e) = Some p
                  /\ ev = classified e p.
Proof.
  unfold events, events_period. rewrite in_map_iff. split.
  - intros ([e q] & <- & Hin). apply filter_In in Hin.
    destruct Hin as [Hin Hq]. apply in_map_iff in Hin.
    destruct Hin as (e' & [= -> <-] & He).
    destruct (infer_period (Xlsx.date e)) as [p|] eqn:Hp; [|discriminate].
    exists e, p. simpl. rewrite Hp. auto.
  - intros (e & p & He & Hp & ->).
    exists (e, Some p). split; [reflexivity|].
    apply filter_In. split; [|reflexivity].
    apply in_map_iff. exists e. rewrite Hp. auto.
Qed.

Lemma events_period_inferred (ev : Ev.row) :
  In ev (events xlsx) -> Ev.period ev = infer_period (Ev.date ev).
Proof.
  intros H. apply events_In in H. destruct H as (e & p & _ & Hp & ->).
  simpl. unfold Ev.date. simpl. symmetry. exact Hp.
Qed.

Lemma nasdaq_In (r : Df.row) :
  In r (nasdaq csv) <-> In r (df csv) /\ Df.index r = "NASDAQ".
Proof.
  unfold nasdaq. rewrite sort_values_In, filter_In, String.eqb_eq.
  reflexivity.
Qed.

Lemma nasdaq_by_date_In (r : Df.row) :
  In r (nasdaq_by_date csv) <-> In r (df csv) /\ Df.index r = "NASDAQ".
Proof. unfold nasdaq_by_date. rewrite sort_values_In. apply nasdaq_In. Qed.

Lemma nasdaq_by_date_sorted :
  StronglySorted (fun a b => (Df.date a <=? Df.date b) = true)
    (nasdaq_by_date csv).
Proof.
  apply sort_values_sorted.
  - intros a b. apply date_le_total.
  - intros a b c. apply date_le_trans.
Qed.

(** The backward search against the loaded NASDAQ observations. *)
Lemma matched_spec (t : pd.datetime64) :
  match matched csv t with
  | Some m =>
      In m (df csv) /\ In (Df.obs m) csv /\ is_nasdaq (Df.obs m) = true
      /\ Df.date m <= t
      /\ forall c, In c csv -> is_nasdaq c = true -> Csv.date c <= t ->
                   Csv.date c <= Df.date m
  | None => forall c, In c csv -> is_nasdaq c = true -> t < Csv.date c
  end.
Proof.
  pose proof (asof_backward_sorted Df.date (nasdaq_by_date csv) t
                nasdaq_by_date_sorted) as H.
  fold (matched csv t) in H. unfold is_nasdaq.
  destruct (matched csv t) as [m|].
  - destruct H as (Hin & Hle & Hmax). apply nasdaq_by_date_In in Hin.
    destruct Hin as [Hdf Hidx]. repeat split; auto.
    + apply df_In_csv. eauto.
    + apply String.eqb_eq, Hidx.
    + intros c Hc Hn Hct. apply df_In_csv in Hc.
      destruct Hc as (r & Hr & <-). apply (Hmax r); [|exact Hct].
      apply nasdaq_by_date_In. split; [exact Hr|].
      apply String.eqb_eq, Hn.
  - intros c Hc Hn. apply df_In_csv in Hc. destruct Hc as (r & Hr & <-).
    apply (H r). apply nasdaq_by_date_In. split; [exact Hr|].
    apply String.eqb_eq, Hn.
Qed.

(** The rows of the merged frame: one per event, with its match. *)
Lemma events_merged_In (r : Merged.row) :
  In r (events_merged csv xlsx)
  <-> exists ev, In ev (events xlsx)
                 /\ r = join_event ev (matched csv (Ev.date ev)).
Proof.
  unfold events_merged, pd.merge_asof. rewrite in_map_iff.
  split.
  - intros (ev & H1 & H2). exists ev. apply sort_values_In in H2. auto.
  - intros (ev & H1 & H2). exists ev.
    split; [symmetry; exact H2|]. apply sort_values_In, H1.
Qed.

Lemma events_aligned_In (a : Aligned.row) :
  In a (events_aligned csv xlsx)
  <-> exists ev, In ev (events xlsx)
                 /\ a = reconcile (join_event ev (matched csv (Ev.date ev))).
Proof.
  unfold events_aligned. rewrite in_map_iff. split.
  - intros (r & <- & Hr). apply events_merged_In in Hr.
    destruct Hr as (ev & Hev & ->). eauto.
  - intros (ev & Hev & ->). eexists. split; [reflexivity|].
    apply events_merged_In. eauto.
Qed.

End Aligner.

(** ** Chart 4: the marker traces *)

Lemma combine3_map {A B C D : Type} (f : A -> B) (g : A -> C) (h : A -> D)
    (l : list A) :
  combine (combine (map f l) (map g l)) (map h l)
  = map (fun a => (f a, g a, h a)) l.
Proof. induction l as [|a l IH]; simpl; [|rewrite IH]; reflexivity. Qed.

Section Chart4.

Variable csv : list Csv.row.
Variable xlsx : list Xlsx.row.

(** The markers of the upper panel are the dot-com events, those of the
    lower panel the AI events; a panel without events has no marker. *)
Lemma fig4_markers_dotcom :
  event_markers_at (fig4 csv xlsx) (1%nat, 1%nat)
  = map marker_point (events_dotcom csv xlsx).
Proof.
  unfold event_markers_at, fig4, add_markers_unless_empty.
  destruct (events_dotcom csv xlsx) as [|a l];
    destruct (events_ia csv xlsx) as [|a' l']; simpl;
    rewrite ?app_nil_r, ?combine3_map; reflexivity.
Qed.

Lemma fig4_markers_ia :
  event_markers_at (fig4 csv xlsx) (2%nat, 1%nat)
  = map marker_point (events_ia csv xlsx).
Proof.
  unfold event_markers_at, fig4, add_markers_unless_empty.
  destruct (events_dotcom csv xlsx) as [|a l];
    destruct (events_ia csv xlsx) as [|a' l']; simpl;
    rewrite ?app_nil_r, ?combine3_map; reflexivity.
Qed.

Lemma event_markers_fig4_In (pt : pd.datetime64 * string * float) :
  In pt (event_markers_fig4 csv xlsx)
  <-> exists a, In a (events_aligned csv xlsx) /\ pt = marker_point a.
Proof.
  unfold event_markers_fig4.
  rewrite fig4_markers_dotcom, fig4_markers_ia, in_app_iff, !in_map_iff.
  unfold events_dotcom, events_ia. split.
  - intros [(a & <- & Ha)|(a & <- & Ha)]; apply filter_In in Ha;
      exists a; tauto.
  - intros (a & Ha & ->).
    pose proof Ha as Hev. apply events_aligned_In in Hev.
    destruct Hev as (ev & Hev & Ea).
    assert (Hp : Aligned.period a = Ev.period ev) by
      (rewrite Ea; apply events_In in Hev;
       destruct Hev as (e & p & _ & _ & ->); reflexivity).
    apply events_In in Hev. destruct Hev as (e & p & _ & Hinf & ->).
    simpl in Hp.
    destruct (infer_period_cases _ _ Hinf) as [-> | ->]; [left|right];
      exists a; (split; [reflexivity|]); apply filter_In;
      rewrite Hp; auto.
Qed.

End Chart4.

(** ** Event Aligner: the claims *)

(** C4.  Every loaded event dated within 1997-01-01..2002-12-31 becomes a
    row of [events] with period "dotcom", every one dated within
    2020-01-01..2025-12-31 a row with period "ia"; an event outside both
    ranges gives no row of [events], no aligned row and no marker of
    chart 4.  Every row of [events] is a loaded event whose date lies
    within the bounds of its period, and no aligned event is in both the
    dot-com and the AI selection. *)
Theorem C4_period_classification (csv : list Csv.row)
    (xlsx : list Xlsx.row) :
  (forall e, In e xlsx ->
     pd.Timestamp 1997 1 1 <= Xlsx.date e <= pd.Timestamp 2002 12 31 ->
     In (classified e "dotcom") (events xlsx))
  /\ (forall e, In e xlsx ->
        pd.Timestamp 2020 1 1 <= Xlsx.date e <= pd.Timestamp 2025 12 31 ->
        In (classified e "ia") (events xlsx))
  /\ (forall e, In e xlsx ->
        ~ pd.Timestamp 1997 1 1 <= Xlsx.date e <= pd.Timestamp 2002 12 31 ->
        ~ pd.Timestamp 2020 1 1 <= Xlsx.date e <= pd.Timestamp 2025 12 31 ->
        (forall ev, In ev (events xlsx) -> Ev.src ev <> e)
        /\ (forall a, In a (events_aligned csv xlsx) ->
                      Aligned.date a <> Xlsx.date e)
        /\ (forall pt, In pt (event_markers_fig4 csv xlsx) ->
                       fst (fst pt) <> Xlsx.date e))
  /\ (forall ev, In ev (events xlsx) ->
        In (Ev.src ev) xlsx
        /\ ((Ev.period ev = Some "dotcom"
             /\ pd.Timestamp 1997 1 1 <= Ev.date ev
                <= pd.Timestamp 2002 12 31)
            \/ (Ev.period ev = Some "ia"
                /\ pd.Timestamp 2020 1 1 <= Ev.date ev
                   <= pd.Timestamp 2025 12 31)))
  /\ (forall a, ~ (In a (events_dotcom csv xlsx)
                   /\ In a (events_ia csv xlsx))).
Proof.
  assert (Haligned : forall a, In a (events_aligned csv xlsx) ->
            infer_period (Aligned.date a) <> None).
  { intros a Ha. apply events_aligned_In in Ha.
    destruct Ha as (ev & Hev & ->). simpl.
    rewrite <- (events_period_inferred xlsx ev Hev).
    apply events_In in Hev. destruct Hev as (e & p & _ & _ & ->).
    discriminate. }
  split; [|split; [|split; [|split]]].
  - intros e He Hd. apply events_In. exists e, "dotcom".
    rewrite infer_period_dotcom. auto.
  - intros e He Hd. apply events_In. exists e, "ia".
    rewrite infer_period_ia. auto.
  - intros e He Hd1 Hd2.
    assert (Hn : infer_period (Xlsx.date e) = None)
      by (apply infer_period_None; auto).
    split; [|split].
    + intros ev Hev <-. apply events_In in Hev.
      destruct Hev as (e' & p & _ & Hp & ->). simpl in *. congruence.
    + intros a Ha Heq. apply (Haligned a Ha). rewrite Heq. exact Hn.
    + intros pt Hpt Heq. apply event_markers_fig4_In in Hpt.
      destruct Hpt as (a & Ha & ->). simpl in Heq.
      apply (Haligned a Ha). rewrite Heq. exact Hn.
  - intros ev Hev. apply events_In in Hev.
    destruct Hev as (e & p & He & Hp & ->).
    split; [exact He|]. unfold Ev.date. simpl.
    destruct (infer_period_cases _ _ Hp) as [-> | ->]; [left|right];
      (split; [reflexivity|]).
    + apply infer_period_dotcom, Hp.
    + apply infer_period_ia, Hp.
  - intros a [H1 H2]. unfold events_dotcom, events_ia in *.
    apply filter_In in H1, H2. destruct H1 as [_ H1], H2 as [_ H2].
    destruct (Aligned.period a) as [p|]; [|discriminate].
    apply String.eqb_eq in H1, H2. congruence.
Qed.

(** C6.  Every row of [events_aligned] comes from a merged row whose own
    period is present, so the [where] of line 88 keeps it: the reconciled
    period is the period inferred from the event's date, never the period
    of the matched observation. *)
Theorem C6_reconciled_period_is_inferred (csv : list Csv.row)
    (xlsx : list Xlsx.row) (a : Aligned.row) :
  In a (events_aligned csv xlsx) ->
  Aligned.period a = infer_period (Aligned.date a)
  /\ Aligned.period a <> None
  /\ exists r, In r (events_merged csv xlsx) /\ a = reconcile r
               /\ pd.notna_obj (Merged.period_event r) = true
               /\ Aligned.period a = Merged.period_event r.
Proof.
  intros Ha. apply events_aligned_In in Ha. destruct Ha as (ev & Hev & ->).
  pose proof (events_period_inferred xlsx ev Hev) as Hp.
  pose proof Hev as Hev'. apply events_In in Hev'.
  destruct Hev' as (e & p & _ & _ & ->).
  simpl in *. unfold Ev.date in *. simpl in *.
  split; [exact Hp|]. split; [discriminate|].
  eexists. split; [apply events_merged_In; eauto|].
  repeat split.
Qed.

Lemma C6_reconciled_period_is_inferred_witness :
  let a := {| Aligned.date := pd.Timestamp 2020 1 2;
              Aligned.event_name := "First session";
              Aligned.description := "before the first AI observation";
              Aligned.close := 1339.5;
              Aligned.period := Some "ia";
              Aligned.period_label := Some "Narrativa IA (2020–2025)" |} in
  Aligned.period a = infer_period (Aligned.date a)
  /\ Aligned.period a <> None
  /\ exists r, In r (events_merged cross_period_csv cross_period_xlsx)
               /\ a = reconcile r
               /\ pd.notna_obj (Merged.period_event r) = true
               /\ Aligned.period a = Merged.period_event r.
Proof.
  apply (C6_reconciled_period_is_inferred cross_period_csv cross_period_xlsx).
  vm_compute. left. reflexivity.
Defined.

(** C1.  An event that survives the classification and has some NASDAQ
    observation on or before its date is matched to a NASDAQ observation
    of the loaded table dated at or before the event; no NASDAQ
    observation of the table is dated after the match and at or before
    the event (in particular none strictly between them), and the aligned
    row of the event carries the close of the match. *)
Theorem C1_asof_match (csv : list Csv.row) (xlsx : list Xlsx.row)
    (ev : Ev.row) (c : Csv.row) :
  In ev (events xlsx) ->
  In c csv -> is_nasdaq c = true -> Csv.date c <= Ev.date ev ->
  exists m,
    matched csv (Ev.date ev) = Some m
    /\ In (Df.obs m) csv /\ is_nasdaq (Df.obs m) = true
    /\ Df.date m <= Ev.date ev
    /\ (forall c', In c' csv -> is_nasdaq c' = true ->
                   ~ (Df.date m < Csv.date c' /\ Csv.date c' <= Ev.date ev))
    /\ In (reconcile (join_event ev (Some m))) (events_aligned csv xlsx)
    /\ Aligned.date (reconcile (join_event ev (Some m))) = Ev.date ev
    /\ Aligned.close (reconcile (join_event ev (Some m))) = Df.close m.
Proof.
  intros Hev Hc Hn Hle.
  pose proof (matched_spec csv (Ev.date ev)) as Hm.
  destruct (matched csv (Ev.date ev)) as [m|] eqn:Em.
  - destruct Hm as (_ & Hin & Hnas & Hmle & Hmax).
    exists m. repeat split; auto.
    + intros c' Hc' Hn' [Hlt Hle']. specialize (Hmax c' Hc' Hn' Hle'). lia.
    + apply events_aligned_In. exists ev. rewrite Em. auto.
  - specialize (Hm c Hc Hn). lia.
Qed.

Lemma C1_asof_match_witness :
  exists m,
    matched sample_csv (Ev.date (classified (event_row 2023 11 30 "GPT"
      "an event between two trading days") "ia")) = Some m
    /\ In (Df.obs m) sample_csv /\ is_nasdaq (Df.obs m) = true
    /\ Df.date m <= pd.Timestamp 2023 11 30
    /\ (forall c', In c' sample_csv -> is_nasdaq c' = true ->
          ~ (Df.date m < Csv.date c'
             /\ Csv.date c' <= pd.Timestamp 2023 11 30))
    /\ In (reconcile (join_event (classified (event_row 2023 11 30 "GPT"
             "an event between two trading days") "ia") (Some m)))
          (events_aligned sample_csv sample_xlsx)
    /\ Aligned.date (reconcile (join_event (classified
         (event_row 2023 11 30 "GPT" "an event between two trading days")
         "ia") (Some m))) = pd.Timestamp 2023 11 30
    /\ Aligned.close (reconcile (join_event (classified
         (event_row 2023 11 30 "GPT" "an event between two trading days")
         "ia") (Some m))) = Df.close m.
Proof.
  apply (C1_asof_match sample_csv sample_xlsx
           (classified (event_row 2023 11 30 "GPT"
              "an event between two trading days") "ia")
           (obs_row 2023 11 29 "NASDAQ" "ia" 14200 (-0.125) nan)).
  - vm_compute. left. reflexivity.
  - vm_compute. right. left. reflexivity.
  - reflexivity.
  - vm_compute. discriminate.
Defined.

(** The scenario of the spec: the event of 2023-11-30 between the
    observations of 2023-11-29 (14200) and 2023-12-01 (14300) aligns to
    14200. *)
Example asof_scenario :
  option_map Df.close (matched sample_csv (pd.Timestamp 2023 11 30))
  = Some 14200%float.
Proof. reflexivity. Qed.





(** ** Charts 1-3: the traces of a two-panel figure *)

Lemma two_panels_data (ycol : Df.row -> float) (left right : list Df.row) :
  subplots.data (two_panels ycol left right)
  = [ (line_trace ycol left "NASDAQ" true, (1%nat, 1%nat));
      (line_trace ycol left "SP500" true, (1%nat, 1%nat));
      (line_trace ycol right "NASDAQ" false, (1%nat, 2%nat));
      (line_trace ycol right "SP500" false, (1%nat, 2%nat)) ].
Proof. reflexivity. Qed.

(** A line trace plots a column of rows of its frame. *)
Lemma line_trace_rows (ycol : Df.row -> float) (frame : list Df.row)
    (idx_name : string) (legend : bool) :
  exists rows,
    (forall r, In r rows -> In r frame)
    /\ go.x (line_trace ycol frame idx_name legend) = map Df.date rows
    /\ go.y (line_trace ycol frame idx_name legend) = map ycol rows.
Proof.
  eexists. split; [|split; reflexivity].
  intros r Hr. apply filter_In in Hr. apply Hr.
Qed.

Lemma two_panels_rows (ycol : Df.row -> float) (left right : list Df.row)
    (tr : go.Scatter) (c : subplots.cell) :
  In (tr, c) (subplots.data (two_panels ycol left right)) ->
  exists rows,
    (forall r, In r rows -> In r left \/ In r right)
    /\ go.x tr = map Df.date rows /\ go.y tr = map ycol rows.
Proof.
  rewrite two_panels_data.
  intros [H|[H|[H|[H|[]]]]]; injection H as <- _;
    match goal with
    | |- context [line_trace ?y ?f ?i ?l] =>
        destruct (line_trace_rows y f i l) as (rows & Hin & Hx & Hy)
    end;
    exists rows; (split; [|split; assumption]); intros r Hr; auto.
Qed.

(** ** Feature Deriver and Chart Builder: the claims *)

(** C9.  Every loaded observation is a row of [df]; in every row of [df]
    the drawdown percentage is the drawdown fraction times 100, and it is
    missing exactly when the fraction is missing. *)
Theorem C9_drawdown_pct (csv : list Csv.row) :
  (forall c, In c csv -> exists r, In r (df csv) /\ Df.obs r = c)
  /\ (forall r, In r (df csv) ->
        In (Df.obs r) csv
        /\ Df.drawdown_pct r = (Df.drawdown r * 100)%float
        /\ PrimFloat.is_nan (Df.drawdown_pct r)
           = PrimFloat.is_nan (Df.drawdown r)).
Proof.
  split.
  - intros c Hc. apply df_In_csv, Hc.
  - intros r Hr. destruct (df_row csv r Hr) as (i & _ & _ & Hpct & _).
    split; [apply df_In_csv; eauto|]. split; [exact Hpct|].
    rewrite Hpct. apply mul_100_is_nan.
Qed.

(** C8.  [df_vol] holds exactly the rows of [df] whose 30-day rolling
    volatility is present; the two period frames of chart 3 are parts of
    it, and every trace of chart 3 plots the dates and volatilities of rows
    of [df_vol], so none of its values is missing. *)
Theorem C8_volatility_rows_defined (csv : list Csv.row) :
  (forall r, In r (df_vol csv)
             <-> In r (df csv) /\ pd.notna (Df.rolling_vol_30d r) = true)
  /\ (forall r, In r (df_vol_dotcom csv) \/ In r (df_vol_ia csv) ->
                In r (df_vol csv))
  /\ (forall tr c, In (tr, c) (subplots.data (fig3 csv)) ->
        exists rows,
          (forall r, In r rows -> In r (df_vol csv))
          /\ go.x tr = map Df.date rows
          /\ go.y tr = map Df.rolling_vol_30d rows
          /\ forall v, In v (go.y tr) -> pd.notna v = true).
Proof.
  assert (Hvol : forall r, In r (df_vol csv)
            <-> In r (df csv) /\ pd.notna (Df.rolling_vol_30d r) = true)
    by (intros r; apply filter_In).
  assert (Hsub : forall r, In r (df_vol_dotcom csv) \/ In r (df_vol_ia csv) ->
                           In r (df_vol csv)).
  { intros r [H|H]; apply filter_In in H; apply H. }
  split; [exact Hvol|]. split; [exact Hsub|].
  intros tr c Hin.
  change (subplots.data (fig3 csv))
    with (subplots.data (two_panels Df.rolling_vol_30d (df_vol_dotcom csv)
                           (df_vol_ia csv))) in Hin.
  apply two_panels_rows in Hin. destruct Hin as (rows & Hrows & Hx & Hy).
  exists rows. repeat split; auto.
  intros v Hv. rewrite Hy in Hv. apply in_map_iff in Hv.
  destruct Hv as (r & <- & Hr). apply Hvol, Hsub, Hrows, Hr.
Qed.

(** On the sample table chart 3 plots the two present volatilities and
    drops the three rows where it is missing. *)
Example fig3_sample :
  map (fun tc => go.y (fst tc)) (subplots.data (fig3 sample_csv))
  = [ [0.25%float]; []; [0.5%float]; [] ].
Proof. reflexivity. Qed.

(** C5, as the spec words it, fails: on a table whose deepest drawdown is
    -50 % the y range of chart 2 still starts at -100, not at the global
    minimum. *)
Lemma C5_range_counterexample : ~ range_from_global_minimum shallow_csv.
Proof.
  intros (headroom & _ & H & _).
  apply (f_equal (fun rg => match rg with
                            | Some (lo, _) => PrimFloat.eqb lo (-100)%float
                            | None => false
                            end)) in H.
  vm_compute in H. discriminate H.
Qed.

(** C5, amended.  Both panels of chart 2 have the y range [-100, 10],
    whatever the table holds: the global minimum [min_dd] is computed and
    not used.  Every value chart 2 plots is the drawdown percentage of a
    row of [df], and the percentage of every row whose drawdown fraction
    lies in [-1, 0] lies within that range. *)
Theorem C5_fixed_drawdown_range (csv : list Csv.row) :
  yrange_at (fig2 csv) (1%nat, 1%nat) = Some ((-100)%float, 10%float)
  /\ yrange_at (fig2 csv) (1%nat, 2%nat) = Some ((-100)%float, 10%float)
  /\ (forall tr c v, In (tr, c) (subplots.data (fig2 csv)) ->
        In v (go.y tr) ->
        exists r, In r (df csv) /\ v = Df.drawdown_pct r)
  /\ (forall r, In r (df csv) ->
        PrimFloat.leb (-1) (Df.drawdown r) = true ->
        PrimFloat.leb (Df.drawdown r) 0 = true ->
        within ((-100)%float, 10%float) (Df.drawdown_pct r) = true).
Proof.
  split; [reflexivity|]. split; [reflexivity|]. split.
  - intros tr c v Hin Hv.
    change (subplots.data (fig2 csv))
      with (subplots.data (two_panels Df.drawdown_pct (df_dotcom csv)
                             (df_ia csv))) in Hin.
    apply two_panels_rows in Hin. destruct Hin as (rows & Hrows & _ & Hy).
    rewrite Hy in Hv. apply in_map_iff in Hv. destruct Hv as (r & <- & Hr).
    exists r. split; [|reflexivity].
    destruct (Hrows r Hr) as [H|H]; apply filter_In in H; apply H.
  - intros r Hr Hlo Hhi.
    destruct (df_row csv r Hr) as (i & _ & _ & -> & _).
    destruct (mul_100_within (Df.drawdown r) Hlo Hhi) as [H1 H2].
    unfold within. simpl. rewrite H1, H2. reflexivity.
Qed.

(** On the shallow table the global minimum is -50 % and lies inside the
    fixed range. *)
Example min_dd_shallow :
  min_dd shallow_csv = (-50)%float
  /\ within ((-100)%float, 10%float) (min_dd shallow_csv) = true.
Proof. split; reflexivity. Qed.

(** ** Report Renderer *)


(** The pages themselves differ where the drawn identifiers differ: the
    [id] of a figure's [div] is part of the page. *)
Lemma html_template_div_ids (csv : list Csv.row) (xlsx : list Xlsx.row)
    (u1 u2 u3 u4 : string) :
  map (fun ch => pio.div_id (plot ch))
      (chapters (html_template csv xlsx u1 u2 u3 u4))
  = [u1; u2; u3; u4].
Proof. reflexivity. Qed.

(** * Further properties of the script *)

(** ** The sorted frame *)

Lemma StronglySorted_map {A B : Type} (R : B -> B -> Prop) (f : A -> B)
    (l : list A) :
  StronglySorted R (map f l) <-> StronglySorted (fun a b => R (f a) (f b)) l.
Proof.
  induction l as [|a l IH]; simpl.
  - split; constructor.
  - split; intros H; apply StronglySorted_inv in H; destruct H as [Hs Hall];
      (constructor; [apply IH, Hs|]).
    + rewrite Forall_forall in *. intros x Hx. apply Hall, in_map, Hx.
    + rewrite Forall_forall in *. intros y Hy. apply in_map_iff in Hy.
      destruct Hy as (x & <- & Hx). apply Hall, Hx.
Qed.

Lemma df_rows_sorted (csv : list Csv.row) :
  StronglySorted
    (fun a b => index_period_date_le (Df.obs a) (Df.obs b) = true) (df csv).
Proof.
  apply StronglySorted_map
    with (R := fun a b => index_period_date_le a b = true).
  rewrite df_obs. apply df_sorted_sorted.
Qed.

(** X1.  Line 39 and the three assignments keep the loaded rows: [df]
    holds every loaded observation exactly as often as the table does, in
    ascending order of index, then period, then date. *)
Theorem df_sorted_permutation (csv : list Csv.row) :
  Permutation csv (map Df.obs (df csv))
  /\ length (df csv) = length csv
  /\ StronglySorted
       (fun a b => index_period_date_le (Df.obs a) (Df.obs b) = true)
       (df csv).
Proof.
  assert (Hp : Permutation csv (map Df.obs (df csv)))
    by (rewrite df_obs; apply sort_values_perm).
  split; [exact Hp|]. split.
  - apply Permutation_length in Hp. rewrite length_map in Hp. auto.
  - apply df_rows_sorted.
Qed.



(** ** The aligned events *)

(** X3.  Every aligned event has a period label, the label of its own
    period: lines 92-95 never fall back on the label of the matched
    observation, and no aligned event is left without a label. *)
Theorem aligned_period_label (csv : list Csv.row) (xlsx : list Xlsx.row)
    (a : Aligned.row) :
  In a (events_aligned csv xlsx) ->
  Aligned.period_label a = map_period_label (infer_period (Aligned.date a))
  /\ ((Aligned.period a = Some "dotcom"
       /\ Aligned.period_label a = Some "Burbuja puntocom (1997–2002)")
      \/ (Aligned.period a = Some "ia"
          /\ Aligned.period_label a = Some "Narrativa IA (2020–2025)")).
Proof.
  intros Ha. apply events_aligned_In in Ha. destruct Ha as (ev & Hev & ->).
  apply events_In in Hev. destruct Hev as (e & p & _ & Hp & ->).
  simpl. unfold Ev.date. simpl. rewrite Hp.
  destruct (infer_period_cases _ _ Hp) as [-> | ->]; (split; [reflexivity|]);
    [left|right]; split; reflexivity.
Qed.

Lemma aligned_period_label_witness :
  let a := {| Aligned.date := pd.Timestamp 2020 1 2;
              Aligned.event_name := "First session";
              Aligned.description := "before the first AI observation";
              Aligned.close := 1339.5;
              Aligned.period := Some "ia";
              Aligned.period_label := Some "Narrativa IA (2020–2025)" |} in
  Aligned.period_label a = map_period_label (infer_period (Aligned.date a))
  /\ ((Aligned.period a = Some "dotcom"
       /\ Aligned.period_label a = Some "Burbuja puntocom (1997–2002)")
      \/ (Aligned.period a = Some "ia"
          /\ Aligned.period_label a = Some "Narrativa IA (2020–2025)")).
Proof.
  apply (aligned_period_label cross_period_csv cross_period_xlsx).
  vm_compute. left. reflexivity.
Defined.





Lemma events_aligned_period_cases (csv : list Csv.row)
    (xlsx : list Xlsx.row) (a : Aligned.row) :
  In a (events_aligned csv xlsx) ->
  Aligned.period a = Some "dotcom" \/ Aligned.period a = Some "ia".
Proof.
  intros Ha. apply events_aligned_In in Ha. destruct Ha as (ev & Hev & ->).
  apply events_In in Hev. destruct Hev as (e & p & _ & Hp & ->). simpl.
  destruct (infer_period_cases _ _ Hp) as [-> | ->]; auto.
Qed.

Lemma filter_split_perm {A : Type} (p q : A -> bool) (l : list A) :
  (forall x, In x l -> p x = negb (q x)) ->
  Permutation l (filter p l ++ filter q l).
Proof.
  induction l as [|a l IH]; intros H; simpl; [constructor|].
  assert (IH' : Permutation l (filter p l ++ filter q l))
    by (apply IH; intros x Hx; apply H; right; exact Hx).
  rewrite (H a (or_introl eq_refl)). destruct (q a); simpl.
  - apply Permutation_cons_app. exact IH'.
  - constructor. exact IH'.
Qed.

(** X5.  The two panels of chart 4 share out the aligned events: every
    aligned event is a dot-com event or an AI event and none is both, so
    the two selections together are the aligned events, each once. *)
Theorem events_panels_partition (csv : list Csv.row) (xlsx : list Xlsx.row) :
  Permutation (events_aligned csv xlsx)
    (events_dotcom csv xlsx ++ events_ia csv xlsx)
  /\ (length (events_dotcom csv xlsx) + length (events_ia csv xlsx)
      = length (events_aligned csv xlsx))%nat.
Proof.
  assert (Hp : Permutation (events_aligned csv xlsx)
                 (events_dotcom csv xlsx ++ events_ia csv xlsx)).
  { apply filter_split_perm. intros a Ha.
    destruct (events_aligned_period_cases csv xlsx a Ha) as [-> | ->];
      reflexivity. }
  split; [exact Hp|].
  apply Permutation_length in Hp. rewrite length_app in Hp.
  symmetry. exact Hp.
Qed.

(** ** The backward search *)

(** X6.  [nasdaq] holds the NASDAQ observations of the table, of both
    periods, each exactly as often as the table does and in ascending
    order of date; no row of another index is in it. *)
Theorem nasdaq_sorted_rows (csv : list Csv.row) :
  Permutation (filter is_nasdaq csv) (map Df.obs (nasdaq csv))
  /\ StronglySorted (fun a b => Df.date a <= Df.date b) (nasdaq csv)
  /\ (forall r, In r (nasdaq csv) -> Df.index r = "NASDAQ").
Proof.
  split; [|split].
  - unfold nasdaq. rewrite <- sort_values_perm.
    rewrite <- filter_map_swap with (f := is_nasdaq) (g := Df.obs).
    rewrite df_obs. unfold df_sorted.
    generalize (sort_values_perm index_period_date_le csv).
    generalize (pd.sort_values index_period_date_le csv).
    intros l Hp. induction Hp; simpl.
    + constructor.
    + destruct (is_nasdaq x); [constructor|]; assumption.
    + destruct (is_nasdaq x), (is_nasdaq y); try constructor;
        apply Permutation_refl.
    + etransitivity; eassumption.
  - assert (Hs : StronglySorted
                   (fun a b => (Df.date a <=? Df.date b) = true)
                   (nasdaq csv)).
    { apply sort_values_sorted.
      - intros a b. apply date_le_total.
      - intros a b c. apply date_le_trans. }
    induction Hs as [|a l Hl IH Hall]; constructor; [exact IH|].
    rewrite Forall_forall in *. intros x Hx. apply Z.leb_le, Hall, Hx.
  - intros r Hr. apply nasdaq_In in Hr. apply Hr.
Qed.

(** X7.  An event dated on a day with a NASDAQ observation is matched to
    an observation of that very day (exact matches are allowed); when the
    table has one NASDAQ observation per date, its aligned price is the
    close of that observation. *)
Theorem asof_exact_match (csv : list Csv.row) (xlsx : list Xlsx.row)
    (ev : Ev.row) (c : Csv.row) :
  In ev (events xlsx) ->
  In c csv -> is_nasdaq c = true -> Csv.date c = Ev.date ev ->
  exists m,
    matched csv (Ev.date ev) = Some m
    /\ Df.date m = Ev.date ev
    /\ In (reconcile (join_event ev (Some m))) (events_aligned csv xlsx)
    /\ ((forall c1 c2, In c1 csv -> In c2 csv ->
           is_nasdaq c1 = true -> is_nasdaq c2 = true ->
           Csv.date c1 = Csv.date c2 -> c1 = c2) ->
        Df.obs m = c
        /\ Aligned.close (reconcile (join_event ev (Some m))) = Csv.close c).
Proof.
  intros Hev Hc Hn Hd.
  pose proof (matched_spec csv (Ev.date ev)) as Hm.
  destruct (matched csv (Ev.date ev)) as [m|] eqn:Em.
  - destruct Hm as (_ & Hin & Hnas & Hle & Hmax).
    assert (Hdate : Df.date m = Ev.date ev).
    { specialize (Hmax c Hc Hn ltac:(lia)). lia. }
    exists m. split; [reflexivity|]. split; [exact Hdate|]. split.
    + apply events_aligned_In. exists ev. rewrite Em. auto.
    + intros Huniq.
      assert (E : Df.obs m = c)
        by (apply Huniq; auto; unfold Df.date in Hdate; lia).
      split; [exact E|]. simpl. unfold Df.close. rewrite E. reflexivity.
  - specialize (Hm c Hc Hn). lia.
Qed.

Lemma asof_exact_match_witness :
  exists m,
    matched sample_csv (pd.Timestamp 2023 11 29) = Some m
    /\ Df.date m = pd.Timestamp 2023 11 29
    /\ In (reconcile (join_event
             (classified (event_row 2023 11 29 "Close" "on a trading day")
                "ia") (Some m)))
          (events_aligned sample_csv
             [event_row 2023 11 29 "Close" "on a trading day"])
    /\ ((forall c1 c2, In c1 sample_csv -> In c2 sample_csv ->
           is_nasdaq c1 = true -> is_nasdaq c2 = true ->
           Csv.date c1 = Csv.date c2 -> c1 = c2) ->
        Df.obs m = obs_row 2023 11 29 "NASDAQ" "ia" 14200 (-0.125) nan
        /\ Aligned.close (reconcile (join_event
             (classified (event_row 2023 11 29 "Close" "on a trading day")
                "ia") (Some m)))
           = 14200%float).
Proof.
  apply (asof_exact_match sample_csv
           [event_row 2023 11 29 "Close" "on a trading day"]
           (classified (event_row 2023 11 29 "Close" "on a trading day") "ia")
           (obs_row 2023 11 29 "NASDAQ" "ia" 14200 (-0.125) nan)).
  - vm_compute. left. reflexivity.
  - vm_compute. right. left. reflexivity.
  - reflexivity.
  - reflexivity.
Defined.

(** X8.  The backward search is monotone in the event date: a later date
    is matched whenever an earlier one is, to an observation dated no
    earlier. *)
Theorem asof_monotone (csv : list Csv.row) (t1 t2 : pd.datetime64)
    (m1 : Df.row) :
  t1 <= t2 -> matched csv t1 = Some m1 ->
  exists m2, matched csv t2 = Some m2 /\ Df.date m1 <= Df.date m2.
Proof.
  intros Ht E1.
  pose proof (matched_spec csv t1) as H1. rewrite E1 in H1.
  destruct H1 as (_ & Hin1 & Hn1 & Hle1 & _).
  pose proof (matched_spec csv t2) as H2.
  destruct (matched csv t2) as [m2|].
  - exists m2. split; [reflexivity|].
    destruct H2 as (_ & _ & _ & _ & Hmax).
    apply (Hmax (Df.obs m1)); auto. unfold Df.date in Hle1. lia.
  - specialize (H2 (Df.obs m1) Hin1 Hn1). unfold Df.date in Hle1. lia.
Qed.

Lemma asof_monotone_witness :
  exists m2, matched sample_csv (pd.Timestamp 2023 11 30) = Some m2
             /\ pd.Timestamp 1999 1 4 <= Df.date m2.
Proof.
  refine (asof_monotone sample_csv (pd.Timestamp 2000 1 1)
            (pd.Timestamp 2023 11 30)
            {| Df.obs := obs_row 1999 1 4 "NASDAQ" "dotcom" 110 (-0.5) 0.25;
               Df.period_label := Some "Burbuja puntocom (1997–2002)";
               Df.close_indexed_100 := PrimFloat.next_up 110;
               Df.drawdown_pct := (-50) |} _ _).
  - vm_compute. discriminate.
  - vm_compute. reflexivity.
Defined.

(** ** The traces of the four figures *)









(** ** Rebasing on a degenerate anchor *)

Lemma is_zero_SF (v : float) :
  PrimFloat.is_zero v = true -> exists s, Prim2SF v = S754_zero s.
Proof.
  unfold PrimFloat.is_zero. rewrite eqb_spec.
  change (Prim2SF zero) with (S754_zero false).
  destruct (Prim2SF v) as [s|s| |s m e]; try destruct s;
    try discriminate; eauto.
Qed.

Lemma div_by_zero_anchor (v a : float) :
  PrimFloat.is_zero a = true ->
  (PrimFloat.is_zero v = true -> (v / a * 100)%float = nan)
  /\ (finite_nonzero v = true ->
      PrimFloat.is_infinity (v / a * 100)%float = true).
Proof.
  intros Ha. destruct (is_zero_SF a Ha) as [sa HSa]. split.
  - intros Hv. destruct (is_zero_SF v Hv) as [sv HSv].
    assert (E : (v / a)%float = nan)
      by (apply Prim2SF_inj; rewrite div_spec, HSv, HSa; reflexivity).
    rewrite E. reflexivity.
  - intros Hv. destruct (finite_nonzero_SF v Hv) as (s & m & e & HSv).
    unfold PrimFloat.is_infinity.
    rewrite eqb_spec, abs_spec, mul_spec, div_spec, HSv, HSa.
    destruct s, sa; reflexivity.
Qed.

Lemma div_by_nan_anchor (v a : float) :
  PrimFloat.is_nan a = true -> (v / a * 100)%float = nan.
Proof.
  rewrite is_nan_SF. intros Ha.
  assert (E : (v / a)%float = nan).
  { apply Prim2SF_inj. rewrite div_spec.
    destruct (Prim2SF a); try discriminate.
    destruct (Prim2SF v); reflexivity. }
  rewrite E. reflexivity.
Qed.

(** Every row of a group is rebased on the close of the group's first
    row, whatever that close is. *)
Lemma df_group_rebase (csv : list Csv.row) (k : string * string)
    (r0 : Df.row) (g : list Df.row) (r : Df.row) :
  df_group csv k = r0 :: g -> In r (r0 :: g) ->
  Df.close_indexed_100 r = (Df.close r / Df.close r0 * 100)%float.
Proof.
  intros Hg Hr.
  assert (Hin : In r (df csv) /\ index_period (Df.obs r) = k).
  { rewrite <- Hg in Hr. apply filter_In in Hr.
    destruct Hr as [Hr Hk]. apply same_index_period_eq in Hk. auto. }
  destruct Hin as [Hdf Hk].
  destruct (df_row csv r Hdf) as (i & Hi & -> & _).
  apply transform_at_rebase with (g := map Df.obs g); [exact Hi|].
  rewrite Hk, <- df_group_obs, Hg. reflexivity.
Qed.

(** X10.  A group whose first close is zero is not guarded: its first row
    is rebased to NaN (0/0), and every row of the group with a non-zero
    real close is rebased to an infinity. *)
Theorem rebase_zero_anchor (csv : list Csv.row) (k : string * string)
    (r0 : Df.row) (g : list Df.row) :
  df_group csv k = r0 :: g ->
  PrimFloat.is_zero (Df.close r0) = true ->
  Df.close_indexed_100 r0 = nan
  /\ (forall r, In r (r0 :: g) -> finite_nonzero (Df.close r) = true ->
                PrimFloat.is_infinity (Df.close_indexed_100 r) = true).
Proof.
  intros Hg Hz. split.
  - rewrite (df_group_rebase csv k r0 g r0 Hg (or_introl eq_refl)).
    apply (div_by_zero_anchor (Df.close r0) (Df.close r0) Hz), Hz.
  - intros r Hr Hf. rewrite (df_group_rebase csv k r0 g r Hg Hr).
    apply (div_by_zero_anchor (Df.close r) (Df.close r0) Hz), Hf.
Qed.

Lemma rebase_zero_anchor_witness :
  Df.close_indexed_100 (hd no_row (df_group zero_anchor_csv C3_key)) = nan
  /\ (forall r,
        In r (hd no_row (df_group zero_anchor_csv C3_key)
              :: tl (df_group zero_anchor_csv C3_key)) ->
        finite_nonzero (Df.close r) = true ->
        PrimFloat.is_infinity (Df.close_indexed_100 r) = true).
Proof.
  apply (rebase_zero_anchor zero_anchor_csv C3_key).
  - vm_compute. reflexivity.
  - vm_compute. reflexivity.
Defined.

(** X11.  A group whose first close is missing is rebased to missing
    values throughout: no row of the group keeps a value. *)
Theorem rebase_missing_anchor (csv : list Csv.row) (k : string * string)
    (r0 : Df.row) (g : list Df.row) :
  df_group csv k = r0 :: g ->
  PrimFloat.is_nan (Df.close r0) = true ->
  forall r, In r (r0 :: g) -> Df.close_indexed_100 r = nan.
Proof.
  intros Hg Hn r Hr. rewrite (df_group_rebase csv k r0 g r Hg Hr).
  apply div_by_nan_anchor, Hn.
Qed.

Lemma rebase_missing_anchor_witness :
  Df.close_indexed_100
    (nth 1 (df_group missing_anchor_csv C3_key) no_row) = nan.
Proof.
  apply (rebase_missing_anchor missing_anchor_csv C3_key
           (hd no_row (df_group missing_anchor_csv C3_key))
           (tl (df_group missing_anchor_csv C3_key))).
  - vm_compute. reflexivity.
  - vm_compute. reflexivity.
  - vm_compute. right. left. reflexivity.
Defined.

(** ** Chart 4: which panels have markers *)




(** ** Charts 1-3: which rows are plotted *)

Lemma two_panels_points (ycol : Df.row -> float) (frame : list Df.row) :
  let sub idx per :=
    filter (fun r => String.eqb (Df.index r) idx)
      (filter (fun r => String.eqb (Df.period r) per) frame) in
  figure_points
    (two_panels ycol
       (filter (fun r => String.eqb (Df.period r) "dotcom") frame)
       (filter (fun r => String.eqb (Df.period r) "ia") frame))
  = map (fun r => (Df.date r, ycol r))
      (sub "NASDAQ" "dotcom" ++ sub "SP500" "dotcom"
       ++ sub "NASDAQ" "ia" ++ sub "SP500" "ia").
Proof.
  intros sub. unfold figure_points. rewrite two_panels_data.
  assert (Hc : forall l : list Df.row,
            combine (map Df.date l) (map ycol l)
            = map (fun r => (Df.date r, ycol r)) l)
    by (induction l as [|a l IH]; simpl; [|rewrite IH]; reflexivity).
  simpl. unfold trace_points. simpl. rewrite !Hc, app_nil_r, !map_app.
  reflexivity.
Qed.

Lemma plotted_rows_split (frame : list Df.row) :
  let sub idx per :=
    filter (fun r => String.eqb (Df.index r) idx)
      (filter (fun r => String.eqb (Df.period r) per) frame) in
  Permutation (filter is_plotted frame)
    (sub "NASDAQ" "dotcom" ++ sub "SP500" "dotcom"
     ++ sub "NASDAQ" "ia" ++ sub "SP500" "ia").
Proof.
  induction frame as [|a l IH]; simpl in *; [constructor|].
  unfold is_plotted.
  destruct (String.eqb_spec (Df.period a) "dotcom") as [Ed|Nd];
    destruct (String.eqb_spec (Df.period a) "ia") as [Ei|Ni];
    try congruence; simpl;
    destruct (String.eqb_spec (Df.index a) "NASDAQ") as [En|Nn];
    destruct (String.eqb_spec (Df.index a) "SP500") as [Es|Ns];
    try congruence; simpl;
    first
      [ exact IH
      | constructor; exact IH
      | apply Permutation_cons_app; exact IH
      | rewrite app_assoc; apply Permutation_cons_app;
        rewrite <- app_assoc; exact IH
      | rewrite app_assoc, app_assoc; apply Permutation_cons_app;
        rewrite <- !app_assoc; exact IH ].
Qed.

(** X13.  Charts 1 and 2 plot, each once, exactly the rows of [df] whose
    index is NASDAQ or SP500 and whose period is "dotcom" or "ia", and
    chart 3 those of them with a rolling volatility; a row of any other
    index or period is in no trace. *)
Theorem charts_plot_two_indices (csv : list Csv.row) :
  Permutation
    (map (fun r => (Df.date r, Df.close_indexed_100 r))
       (filter is_plotted (df csv)))
    (figure_points (fig1 csv))
  /\ Permutation
       (map (fun r => (Df.date r, Df.drawdown_pct r))
          (filter is_plotted (df csv)))
       (figure_points (fig2 csv))
  /\ Permutation
       (map (fun r => (Df.date r, Df.rolling_vol_30d r))
          (filter is_plotted (df_vol csv)))
       (figure_points (fig3 csv)).
Proof.
  split; [|split].
  - change (figure_points (fig1 csv))
      with (figure_points (two_panels Df.close_indexed_100
                             (df_dotcom csv) (df_ia csv))).
    unfold df_dotcom, df_ia. rewrite two_panels_points.
    apply Permutation_map, plotted_rows_split.
  - change (figure_points (fig2 csv))
      with (figure_points (two_panels Df.drawdown_pct
                             (df_dotcom csv) (df_ia csv))).
    unfold df_dotcom, df_ia. rewrite two_panels_points.
    apply Permutation_map, plotted_rows_split.
  - change (figure_points (fig3 csv))
      with (figure_points (two_panels Df.rolling_vol_30d
                             (df_vol_dotcom csv) (df_vol_ia csv))).
    unfold df_vol_dotcom, df_vol_ia. rewrite two_panels_points.
    apply Permutation_map, plotted_rows_split.
Qed.

(** On the mixed table the DJIA row and the row of period "subprime" are
    in no trace of chart 1. *)
Example fig1_mixed :
  figure_points (fig1 mixed_csv)
  = [ (pd.Timestamp 2000 3 10, 100%float);
      (pd.Timestamp 2000 3 10, 100%float) ].
Proof. reflexivity. Qed.
